(** * POAP2RSS: the feed generator of [poap2rss_lambda.py]

    A shallow embedding of [RSSFeedGenerator] (event feed, address feed,
    inactivity alert, XML formatting) and of the Python library functions
    it calls, followed by the properties of the feed pipeline.

    Conventions of the embedding.
    - Python [str] is [string]; a character is an [ascii].
    - A JSON scalar is a [value]; a JSON object with scalar members is a
      [gmap string value].
    - An instant is a number of microseconds since 1970-01-01T00:00:00Z.
    - Code that raises returns [Raise e]; code that reads the wall clock
      is a computation of [M]. *)

From stdpp Require Import base strings list gmap option.
From Stdlib Require Import ZArith Ascii String DecimalString DecimalZ DecimalPos Lia.

Local Open Scope string_scope.
Local Open Scope Z_scope.

(** ** Exceptions and results *)

Inductive exn :=
| KeyError (key : string)
| ValueError
| TypeError
| AttributeError
| RequestException
| ExpatError.

Inductive res (A : Type) :=
| Ok (a : A)
| Raise (e : exn).
Arguments Ok {A} a.
Arguments Raise {A} e.

Definition is_ValueError (e : exn) : bool :=
  match e with ValueError => true | _ => false end.

Definition is_TypeError (e : exn) : bool :=
  match e with TypeError => true | _ => false end.

Module Res.
Definition bind {A B} (m : res A) (k : A -> res B) : res B :=
  match m with
  | Ok a => k a
  | Raise e => Raise e
  end.

Definition map {A B} (f : A -> B) (m : res A) : res B :=
  bind m (fun a => Ok (f a)).

(** [try: m  except Exception: h] *)
Definition try_except {A} (m : res A) (h : exn -> res A) : res A :=
  match m with
  | Ok a => Ok a
  | Raise e => h e
  end.
End Res.

#[global] Instance res_ret : MRet res := @Ok.
#[global] Instance res_bind : MBind res := fun A B k m => Res.bind m k.
#[global] Instance res_fmap : FMap res := fun A B f m => Res.map f m.

(** ** Python strings *)

Definition nl : string := String (ascii_of_nat 10) EmptyString.
Definition cr : string := String (ascii_of_nat 13) EmptyString.
Definition dq : string := String (ascii_of_nat 34) EmptyString.

(** [s.startswith(p)] *)
Definition startswith (p s : string) : bool := String.prefix p s.

(** [s.endswith(suffix)] *)
Definition endswith (suffix s : string) : bool :=
  let n := String.length s in
  let k := String.length suffix in
  if (k <=? n)%nat then String.eqb (String.substring (n - k) k s) suffix
  else false.

(** [sub in s], for a non-empty [sub] *)
Fixpoint contains (sub s : string) : bool :=
  match s with
  | EmptyString => false
  | String _ s' => String.prefix sub s || contains sub s'
  end.

(** [s.replace(old, new)] for a non-empty [old]: occurrences are replaced
    from left to right and do not overlap.  [skip] counts the characters
    of a matched occurrence that are still to be dropped. *)
Fixpoint replace_from (old new : string) (skip : nat) (s : string) : string :=
  match s with
  | EmptyString => EmptyString
  | String c s' =>
      match skip with
      | S k => replace_from old new k s'
      | O =>
          if String.prefix old s
          then new +:+ replace_from old new (String.length old - 1) s'
          else String c (replace_from old new 0 s')
      end
  end.

Definition replace (old new s : string) : string := replace_from old new 0 s.

(** [s[:n]] *)
Definition slice_to (n : nat) (s : string) : string := String.substring 0 n s.

(** [s[-n:]] for [n > 0] *)
Definition slice_last (n : nat) (s : string) : string :=
  String.substring (String.length s - n) n s.

(** [''.join(l)] *)
Definition join (l : list string) : string := foldr String.append EmptyString l.

(** [str(n)] for an [int] *)
Definition str_of_Z (n : Z) : string := NilZero.string_of_int (Z.to_int n).

(** [n] written with at least [width] digits, zero padded ([%02d], [%04d]);
    [n] is not negative where this is used. *)
Definition zfill (width : nat) (n : Z) : string :=
  let s := str_of_Z n in
  String.concat EmptyString (repeat "0" (width - String.length s)) +:+ s.

(** ** JSON scalars and objects *)

Inductive value :=
| VNone
| VInt (n : Z)
| VStr (s : string).

(** [str(v)], which is what an f-string field [{v}] inserts *)
Definition py_str (v : value) : string :=
  match v with
  | VNone => "None"
  | VInt n => str_of_Z n
  | VStr s => s
  end.

(** the truth value of [v] in [if v:] *)
Definition truthy (v : value) : bool :=
  match v with
  | VNone => false
  | VInt n => negb (n =? 0)%Z
  | VStr s => negb (String.eqb s EmptyString)
  end.

(** [d.get(key, fallback)] *)
Definition get (d : gmap string value) (key : string) (fallback : value) : value :=
  match d !! key with
  | Some v => v
  | None => fallback
  end.

(** [d.get(key)] *)
Definition get_or_None (d : gmap string value) (key : string) : value :=
  get d key VNone.

(** [d[key]] *)
Definition getitem (d : gmap string value) (key : string) : res value :=
  match d !! key with
  | Some v => Ok v
  | None => Raise (KeyError key)
  end.

(** a method of [str] called on [v]: a value that is not a string has no
    such attribute *)
Definition as_str (v : value) : res string :=
  match v with
  | VStr s => Ok s
  | _ => Raise AttributeError
  end.

(** [v[:6]] and [v[-4:]]: only a string can be sliced *)
Definition subscript (v : value) : res string :=
  match v with
  | VStr s => Ok s
  | _ => Raise TypeError
  end.

(** ** Dates and times

    A [datetime] keeps its wall-clock fields as one number, the
    microseconds from 1970-01-01 00:00:00 on its own clock face, and its
    [tzinfo] as the UTC offset in microseconds ([None] for a naive value). *)

Definition usec_per_second : Z := 1000000.
Definition usec_per_day : Z := 86400 * usec_per_second.

Record datetime := { wall : Z; tzinfo : option Z }.

(** [d.replace(tzinfo=timezone.utc)]: the fields stay, the zone is set *)
Definition replace_tzinfo_utc (d : datetime) : datetime :=
  {| wall := wall d; tzinfo := Some 0 |}.

(** the instant of an aware datetime *)
Definition utc_instant (d : datetime) : option Z :=
  match tzinfo d with
  | Some off => Some (wall d - off)
  | None => None
  end.

(** [d.timestamp()], in microseconds.  A naive value is read on the local
    clock of the process, which is taken to be UTC. *)
Definition timestamp (d : datetime) : Z :=
  match tzinfo d with
  | Some off => wall d - off
  | None => wall d
  end.

(** [a > b] on datetimes: naive and aware values do not compare *)
Definition datetime_gt (a b : datetime) : res bool :=
  match tzinfo a, tzinfo b with
  | Some oa, Some ob => Ok (wall b - ob <? wall a - oa)
  | None, None => Ok (wall b <? wall a)
  | _, _ => Raise TypeError
  end.

(** [now - d] for the aware instant [now]: a [timedelta], in microseconds *)
Definition datetime_sub (now : Z) (d : datetime) : res Z :=
  match tzinfo d with
  | Some off => Ok (now - (wall d - off))
  | None => Raise TypeError
  end.

(** [td.days]: a [timedelta] is normalised with [0 <= seconds < 86400],
    so its [days] is the floor *)
Definition timedelta_days (td : Z) : Z := td / usec_per_day.

(** *** The proleptic Gregorian calendar *)

Definition is_leap (y : Z) : bool :=
  ((y mod 4 =? 0) && negb (y mod 100 =? 0) || (y mod 400 =? 0))%Z.

Definition days_in_month (y m : Z) : Z :=
  if (m =? 2)%Z then (if is_leap y then 29 else 28)
  else if ((m =? 4) || (m =? 6) || (m =? 9) || (m =? 11))%Z then 30
  else 31.

(** days from 1970-01-01 to the date [y]-[m]-[d] *)
Definition days_from_civil (y m d : Z) : Z :=
  let y' := if (m <=? 2)%Z then y - 1 else y in
  let era := y' / 400 in
  let yoe := y' - era * 400 in
  let mp := if (m <=? 2)%Z then m + 9 else m - 3 in
  let doy := (153 * mp + 2) / 5 + d - 1 in
  let doe := yoe * 365 + yoe / 4 - yoe / 100 + doy in
  era * 146097 + doe - 719468.

(** the date, [(year, month, day)], that lies [z] days after 1970-01-01 *)
Definition civil_from_days (z : Z) : Z * Z * Z :=
  let z' := z + 719468 in
  let era := z' / 146097 in
  let doe := z' - era * 146097 in
  let yoe := (doe - doe / 1460 + doe / 36524 - doe / 146096) / 365 in
  let doy := doe - (365 * yoe + yoe / 4 - yoe / 100) in
  let mp := (5 * doy + 2) / 153 in
  let d := doy - (153 * mp + 2) / 5 + 1 in
  let m := if (mp <? 10)%Z then mp + 3 else mp - 9 in
  let y := yoe + era * 400 in
  (if (m <=? 2)%Z then y + 1 else y, m, d).

Definition day_name (days : Z) : string :=
  nth (Z.to_nat ((days + 3) mod 7))
      ["Mon"; "Tue"; "Wed"; "Thu"; "Fri"; "Sat"; "Sun"] EmptyString.

Definition month_name (m : Z) : string :=
  nth (Z.to_nat (m - 1))
      ["Jan"; "Feb"; "Mar"; "Apr"; "May"; "Jun";
       "Jul"; "Aug"; "Sep"; "Oct"; "Nov"; "Dec"] EmptyString.

(** [HH:MM:SS] of the second-of-day [s] *)
Definition clock_face (s : Z) : string :=
  zfill 2 (s / 3600) +:+ ":" +:+ zfill 2 (s / 60 mod 60) +:+ ":" +:+ zfill 2 (s mod 60).

(** [email.utils.formatdate(timeval, localtime=False, usegmt=True)]: the
    RFC 2822 date of the instant, whole seconds, zone [GMT].  The instants
    of the feed lie in the years 1 to 9999. *)
Definition formatdate (timeval : Z) : string :=
  let secs := timeval / usec_per_second in
  let days := secs / 86400 in
  let '(y, m, d) := civil_from_days days in
  day_name days +:+ ", " +:+ zfill 2 d +:+ " " +:+ month_name m +:+ " " +:+
  zfill 4 y +:+ " " +:+ clock_face (secs mod 86400) +:+ " GMT".

(** [d.strftime('%Y-%m-%d %H:%M:%S UTC')]: the fields of [d] as they
    stand, whatever its zone, followed by the literal [UTC] *)
Definition strftime_UTC (d : datetime) : string :=
  let secs := wall d / usec_per_second in
  let '(y, m, dd) := civil_from_days (secs / 86400) in
  zfill 4 y +:+ "-" +:+ zfill 2 m +:+ "-" +:+ zfill 2 dd +:+ " " +:+
  clock_face (secs mod 86400) +:+ " UTC".

(** *** [datetime.fromisoformat]

    The grammar of CPython 3.7 to 3.10: [YYYY-MM-DD], then optionally one
    separator character of any kind and [HH[:MM[:SS[.fff[fff]]]]] with an
    optional offset [+HH:MM[:SS[.ffffff]]] or [-HH:MM[:SS[.ffffff]]].
    Later versions read these strings the same way and accept further
    forms.  [None] stands for [ValueError]. *)

Module Iso.

Definition digit (c : ascii) : option Z :=
  let n := Z.of_nat (nat_of_ascii c) in
  if (48 <=? n) && (n <=? 57) then Some (n - 48) else None.

Fixpoint digits_from (acc : Z) (s : string) : option Z :=
  match s with
  | EmptyString => Some acc
  | String c s' =>
      match digit c with
      | Some d => digits_from (10 * acc + d) s'
      | None => None
      end
  end.

(** the number written by the [len] digits of [s] at [pos] *)
Definition field (pos len : nat) (s : string) : option Z :=
  let f := String.substring pos len s in
  if (String.length f =? len)%nat && negb (len =? 0)%nat
  then digits_from 0 f else None.

Definition char_is (pos : nat) (c : string) (s : string) : bool :=
  String.eqb (String.substring pos 1 s) c.

Definition parse_isoformat_date (dstr : string) : option (Z * Z * Z) :=
  y ← field 0 4 dstr;
  m ← field 5 2 dstr;
  d ← field 8 2 dstr;
  if char_is 4 "-" dstr && char_is 7 "-" dstr
     && (1 <=? y) && (1 <=? m) && (m <=? 12)
     && (1 <=? d) && (d <=? days_in_month y m)
  then Some (y, m, d) else None.

(** the fraction after the seconds: nothing, or [.fff], or [.ffffff] *)
Definition parse_fraction (rest : string) : option Z :=
  if String.eqb rest EmptyString then Some 0
  else if char_is 0 "." rest then
    match String.length rest with
    | 4%nat => us ← field 1 3 rest; Some (us * 1000)
    | 7%nat => field 1 6 rest
    | _ => None
    end
  else None.

(** [HH[:MM[:SS[.fff[fff]]]]] as [(hour, minute, second, microsecond)] *)
Definition parse_hh_mm_ss_ff (tstr : string) : option (Z * Z * Z * Z) :=
  let len := String.length tstr in
  h ← field 0 2 tstr;
  if (len =? 2)%nat then Some (h, 0, 0, 0)
  else if negb (char_is 2 ":" tstr) then None
  else
    m ← field 3 2 tstr;
    if (len =? 5)%nat then Some (h, m, 0, 0)
    else if negb (char_is 5 ":" tstr) then None
    else
      s ← field 6 2 tstr;
      us ← parse_fraction (String.substring 8 (len - 8) tstr);
      Some (h, m, s, us).

Definition usec_of (c : Z * Z * Z * Z) : Z :=
  let '(h, m, s, us) := c in ((h * 60 + m) * 60 + s) * usec_per_second + us.

(** the position of the sign that starts the offset: the first [-], and
    when there is none the first [+] *)
Definition tz_sign (tstr : string) : option (nat * Z) :=
  match String.index 0 "-" tstr with
  | Some i => Some (i, -1)
  | None =>
      match String.index 0 "+" tstr with
      | Some i => Some (i, 1)
      | None => None
      end
  end.

Definition valid_time (c : Z * Z * Z * Z) : bool :=
  let '(h, m, s, us) := c in (h <? 24) && (m <? 60) && (s <? 60).

(** the time of day and the offset, both in microseconds *)
Definition parse_isoformat_time (tstr : string) : option (Z * option Z) :=
  match tz_sign tstr with
  | None =>
      c ← parse_hh_mm_ss_ff tstr;
      if valid_time c then Some (usec_of c, None) else None
  | Some (i, sign) =>
      let tzstr := String.substring (S i) (String.length tstr - S i) tstr in
      c ← parse_hh_mm_ss_ff (String.substring 0 i tstr);
      tz ← parse_hh_mm_ss_ff tzstr;
      let n := String.length tzstr in
      if valid_time c && ((n =? 5) || (n =? 8) || (n =? 15))%nat
         && (usec_of tz <? usec_per_day)
      then Some (usec_of c, Some (sign * usec_of tz)) else None
  end.

Definition fromisoformat (date_string : string) : option datetime :=
  let dstr := String.substring 0 10 date_string in
  let tstr := String.substring 11 (String.length date_string - 11) date_string in
  '(y, m, d) ← parse_isoformat_date dstr;
  let midnight := days_from_civil y m d * usec_per_day in
  if String.eqb tstr EmptyString
  then Some {| wall := midnight; tzinfo := None |}
  else
    '(t, tz) ← parse_isoformat_time tstr;
    Some {| wall := midnight + t; tzinfo := tz |}.

End Iso.

(** *** [html.unescape]

    The named references [&amp;] [&lt;] [&gt;] [&quot;] [&apos;] are
    replaced by their characters, from left to right, and the replacement
    is not read again.  [html.unescape] knows the whole HTML 5 table and
    the numeric references as well: this is what it does on a text whose
    [&] characters all start one of these five references or are followed
    by a space. *)

Module Html.

Fixpoint unescape_from (skip : nat) (s : string) : string :=
  match s with
  | EmptyString => EmptyString
  | String c s' =>
      match skip with
      | S k => unescape_from k s'
      | O =>
          if String.prefix "&amp;" s then String "&" (unescape_from 4 s')
          else if String.prefix "&lt;" s then String "<" (unescape_from 3 s')
          else if String.prefix "&gt;" s then String ">" (unescape_from 3 s')
          else if String.prefix "&quot;" s then dq +:+ unescape_from 5 s'
          else if String.prefix "&apos;" s then String "'" (unescape_from 5 s')
          else String c (unescape_from 0 s')
      end
  end.

Definition unescape (s : string) : string := unescape_from 0 s.

End Html.

(** ** The wall clock

    [time.time()] and [datetime.now(timezone.utc)] read the same clock.
    A [clock] is the sequence of its readings, in microseconds; every call
    takes the next one, and a computation threads the number of readings
    taken so far. *)

Definition clock : Type := nat -> Z.

Definition M (A : Type) : Type := clock -> nat -> res A * nat.

Module M.
Definition ret {A} (a : A) : M A := fun _ taken => (Ok a, taken).

Definition bind {A B} (m : M A) (k : A -> M B) : M B :=
  fun c taken =>
    match m c taken with
    | (Ok a, taken') => k a c taken'
    | (Raise e, taken') => (Raise e, taken')
    end.

(** a computation that does not read the clock *)
Definition lift {A} (r : res A) : M A := fun _ taken => (r, taken).

(** [time.time()], in microseconds *)
Definition time_time : M Z := fun c taken => (Ok (c taken), S taken).

(** [datetime.now(timezone.utc)] *)
Definition datetime_now : M Z := time_time.

(** [for x in l: acc = f(acc, x)] *)
Fixpoint for_each {A B} (f : B -> A -> M B) (l : list A) (acc : B) : M B :=
  match l with
  | [] => ret acc
  | x :: l' => bind (f acc x) (for_each f l')
  end.

(** the result of a whole invocation, which starts with no reading taken *)
Definition run {A} (m : M A) (c : clock) : res A := (m c O).1.
End M.

#[global] Instance M_ret : MRet M := @M.ret.
#[global] Instance M_bind : MBind M := fun A B k m => M.bind m k.
#[global] Instance M_fmap : FMap M := fun A B f m => M.bind m (fun a => M.ret (f a)).

(** ** [xml.etree.ElementTree] *)

#[warnings="-register-all"]
Inductive Element :=
  Elem { tag : string;
         attrib : list (string * string);
         text : option string;
         children : list Element }.

(** [Element(tag)] *)
Definition new_Element (tag : string) : Element := Elem tag [] None [].

(** [e.set(key, v)]: [attrib] is a dict, a key that is there keeps its place *)
Fixpoint set_item (key v : string) (l : list (string * string)) : list (string * string) :=
  match l with
  | [] => [(key, v)]
  | (k, w) :: l' => if String.eqb k key then (k, v) :: l' else (k, w) :: set_item key v l'
  end.

Definition set (e : Element) (key v : string) : Element :=
  Elem (tag e) (set_item key v (attrib e)) (text e) (children e).

(** [parent.append(child)] *)
Definition append (parent child : Element) : Element :=
  Elem (tag parent) (attrib parent) (text parent) (children parent ++ [child]).

(** [SubElement(parent, tag).text = text] *)
Definition SubElement (parent : Element) (tag : string) (text : string) : Element :=
  append parent (Elem tag [] (Some text) []).

(** the [item] children of a channel, in document order *)
Definition items (channel : Element) : list Element :=
  List.filter (fun e => String.eqb (tag e) "item") (children channel).

(** the text of the first child of [e] that is called [name] *)
Definition findtext (name : string) (e : Element) : option string :=
  match List.filter (fun c => String.eqb (tag c) name) (children e) with
  | c :: _ => Some (default EmptyString (text c))
  | [] => None
  end.

(** ** [xml.dom.minidom] *)

#[warnings="-register-all"]
Inductive Node :=
| ElementNode (tagName : string) (attributes : list (string * string))
              (childNodes : list Node)
| TextNode (data : string)
| CDATASection (data : string).

Section MapM.
Context {A B : Type} (f : A -> res B).

(** [[f(x) for x in l]], stopping at the first exception *)
Fixpoint res_mapM (l : list A) : res (list B) :=
  match l with
  | [] => Ok []
  | x :: l' =>
      match f x with
      | Ok y =>
          match res_mapM l' with
          | Ok ys => Ok (y :: ys)
          | Raise e => Raise e
          end
      | Raise e => Raise e
      end
  end.
End MapM.

(** the characters that XML 1.0 allows in a document *)
Definition xml_char (c : ascii) : bool :=
  let n := nat_of_ascii c in
  ((32 <=? n) || (n =? 9) || (n =? 10) || (n =? 13))%nat.

Fixpoint xml_chars (s : string) : bool :=
  match s with
  | EmptyString => true
  | String c s' => xml_char c && xml_chars s'
  end.

(** [_escape_cdata] of [ElementTree]: how [tostring] writes a text *)
Definition escape_cdata (text : string) : string :=
  replace ">" "&gt;" (replace "<" "&lt;" (replace "&" "&amp;" text)).

(** What the parser hands back for the character data [s] of an element:
    the predefined entities are decoded, a line end [CR LF] or [CR] becomes
    [LF], and a character outside XML, a bare [&] or a [<] is an error.
    [skip] counts the characters of a construct that are still to be
    dropped. *)
Fixpoint character_data (skip : nat) (s : string) : res string :=
  match s with
  | EmptyString => Ok EmptyString
  | String c s' =>
      match skip with
      | S k => character_data k s'
      | O =>
          if String.prefix "&amp;" s then String "&" <$> character_data 4 s'
          else if String.prefix "&lt;" s then String "<" <$> character_data 3 s'
          else if String.prefix "&gt;" s then String ">" <$> character_data 3 s'
          else if String.prefix "&" s || String.prefix "<" s then Raise ExpatError
          else if String.prefix (cr +:+ nl) s then character_data 0 s'
          else if String.prefix cr s then String (ascii_of_nat 10) <$> character_data 0 s'
          else if xml_char c then String c <$> character_data 0 s'
          else Raise ExpatError
      end
  end.

(** the value of an attribute after [tostring] and the parser: [tostring]
    writes its line ends and tabs as character references, so the value
    comes back as it was *)
Definition attribute_value (kv : string * string) : res (string * string) :=
  if xml_chars kv.2 then Ok kv else Raise ExpatError.

Definition is_xmlns (kv : string * string) : bool := String.prefix "xmlns:" kv.1.

(** [minidom.parseString(tostring(root, encoding='unicode'))].
    [tostring] writes no white space between elements, and writes an
    element without text and children as an empty tag; the parser builds
    one text node for the text of an element, and puts the namespace
    declarations of an element before its other attributes.  The prefixes
    used in tags are declared on the root. *)
Fixpoint parseString_tostring (e : Element) : res Node :=
  match e with
  | Elem tag attrib text children =>
      attrs ← res_mapM attribute_value attrib;
      t ← match text with
          | None => Ok []
          | Some s =>
              if String.eqb s EmptyString then Ok []
              else d ← character_data 0 (escape_cdata s); Ok [TextNode d]
          end;
      kids ← res_mapM parseString_tostring children;
      Ok (ElementNode tag
            (List.filter is_xmlns attrs ++ List.filter (fun kv => negb (is_xmlns kv)) attrs)
            (t ++ kids))
  end.

(** [node.data] *)
Definition node_data (n : Node) : res string :=
  match n with
  | TextNode d | CDATASection d => Ok d
  | ElementNode _ _ _ => Raise AttributeError
  end.

(** [_write_data]: how [minidom] writes text and attribute values *)
Definition write_data (data : string) : string :=
  replace ">" "&gt;" (replace dq "&quot;" (replace "<" "&lt;" (replace "&" "&amp;" data))).

Definition write_attribute (kv : string * string) : string :=
  " " +:+ kv.1 +:+ "=" +:+ dq +:+ write_data kv.2 +:+ dq.

(** [node.writexml(writer, indent, addindent, newl)] *)
Fixpoint writexml (indent addindent newl : string) (n : Node) : res string :=
  match n with
  | TextNode data => Ok (write_data (indent +:+ data +:+ newl))
  | CDATASection data =>
      if contains "]]>" data then Raise ValueError
      else Ok ("<![CDATA[" +:+ data +:+ "]]>")
  | ElementNode tagName attributes childNodes =>
      let start := indent +:+ "<" +:+ tagName +:+ join (write_attribute <$> attributes) in
      match childNodes with
      | [] => Ok (start +:+ "/>" +:+ newl)
      | [TextNode _ as child] | [CDATASection _ as child] =>
          body ← writexml EmptyString EmptyString EmptyString child;
          Ok (start +:+ ">" +:+ body +:+ "</" +:+ tagName +:+ ">" +:+ newl)
      | _ =>
          bodies ← res_mapM (writexml (indent +:+ addindent) addindent newl) childNodes;
          Ok (start +:+ ">" +:+ newl +:+ join bodies +:+
              indent +:+ "</" +:+ tagName +:+ ">" +:+ newl)
      end
  end.

Definition xml_declaration : string :=
  "<?xml version=" +:+ dq +:+ "1.0" +:+ dq +:+ " encoding=" +:+ dq +:+ "utf-8" +:+ dq +:+ "?>".

(** [doc.toprettyxml(indent='  ', encoding='utf-8').decode('utf-8')] *)
Definition toprettyxml (documentElement : Node) : res string :=
  body ← writexml EmptyString "  " nl documentElement;
  Ok (xml_declaration +:+ nl +:+ body).

(** ** Upstream data *)

(** A token record of the POAP API: a JSON object whose members [owner]
    and [event], when present, are objects, and whose other members are
    scalars. *)
Record poap := {
  members : gmap string value;
  owner : option (gmap string value);
  event : option (gmap string value) }.

(** [poap.get('owner', {})], [poap.get('event', {})] *)
Definition get_object (o : option (gmap string value)) : gmap string value :=
  default ∅ o.

(** The methods of [POAPAPIClient] that the generator calls.  Each answers
    with the decoded JSON or raises. *)
Record POAPAPIClient := {
  get_event_details : Z -> res (gmap string value);
  get_event_poaps : Z -> res (list poap);
  get_address_poaps : string -> res (list poap) }.

Definition MAX_CLAIMS_COUNT : nat := 20.

(** ** [RSSFeedGenerator] *)

Section RSSFeedGenerator.

(** [datetime.fromisoformat], [None] standing for [ValueError] *)
Variable fromisoformat : string -> option datetime.

(** [html.unescape] *)
Variable html_unescape : string -> string.

(** read from the environment when the module is loaded, [4] by default *)
Variable INACTIVITY_THRESHOLD_WEEKS : Z.

Definition datetime_fromisoformat (s : string) : res datetime :=
  match fromisoformat s with
  | Some d => Ok d
  | None => Raise ValueError
  end.

(** [CDATA(s)]: [xml.etree.ElementTree] exports no [CDATA], so the import
    at the top of the module fails and the name is bound to the fallback
    class, an empty subclass of [str] *)
Definition CDATA (s : string) : string := s.

(** *** Channel metadata *)

Definition _add_channel_metadata (channel : Element)
    (event_details : gmap string value) (feed_type : string) : M Element :=
  let event_name := py_str (get event_details "name" (VStr "Unknown Event")) in
  let event_id := py_str (get event_details "id" (VStr "unknown")) in
  let channel := SubElement channel "title" ("POAP: " +:+ event_name) in
  let channel := SubElement channel "description"
                   ("Activity for " +:+ event_name +:+ " POAP drop.") in
  let channel := SubElement channel "link"
                   ("https://poap.gallery/drops/" +:+ event_id) in
  let channel := SubElement channel "language" "en-us" in
  now ← M.time_time;
  let channel := SubElement channel "lastBuildDate" (formatdate now) in
  let channel := SubElement channel "generator" "POAP2RSS/1.0" in
  let atom_link := new_Element "atom:link" in
  let atom_link := set atom_link "href"
                     ("https://app.poap2rss.com/event/" +:+ event_id) in
  let atom_link := set atom_link "rel" "self" in
  let atom_link := set atom_link "type" "application/rss+xml" in
  mret (append channel atom_link).

(** [_get_ens_name]: name resolution is not implemented *)
Definition _get_ens_name (address : string) : option string := None.

Definition _add_address_channel_metadata (channel : Element)
    (address : string) : M Element :=
  let ens_name := _get_ens_name address in
  let display_name :=
    match ens_name with
    | Some n => if String.eqb n EmptyString
                then slice_to 6 address +:+ "..." +:+ slice_last 4 address
                else n
    | None => slice_to 6 address +:+ "..." +:+ slice_last 4 address
    end in
  let channel := SubElement channel "title"
                   ("POAP: " +:+ display_name +:+ " Collection") in
  let channel := SubElement channel "description"
                   ("Latest POAP tokens for " +:+ display_name +:+ ".") in
  let channel := SubElement channel "link"
                   ("https://collectors.poap.xyz/scan/" +:+ address) in
  let channel := SubElement channel "language" "en-us" in
  now ← M.time_time;
  let channel := SubElement channel "lastBuildDate" (formatdate now) in
  let channel := SubElement channel "generator" "POAP2RSS/1.0" in
  let atom_link := new_Element "atom:link" in
  let atom_link := set atom_link "href"
                     ("https://app.poap2rss.com/address/" +:+ address) in
  let atom_link := set atom_link "rel" "self" in
  let atom_link := set atom_link "type" "application/rss+xml" in
  mret (append channel atom_link).

(** *** The event description item *)

Definition img (src : string) : string :=
  "<img src=" +:+ dq +:+ src +:+ dq +:+ " width=" +:+ dq +:+ "500" +:+ dq +:+
  " height=" +:+ dq +:+ "500" +:+ dq +:+ " />".

(** the body of the item, [description_html] *)
Definition event_description_html (event_details : gmap string value) : string :=
  let event_name := py_str (get event_details "name" (VStr "Unknown Event")) in
  let event_description :=
    py_str (get event_details "description" (VStr "No description available")) in
  let description_html :=
    nl +:+ "        <h3>" +:+ event_name +:+ "</h3>" +:+
    nl +:+ "        <p>" +:+ event_description +:+ "</p>" +:+
    nl +:+ "        " in
  let description_html :=
    if truthy (get_or_None event_details "image_url")
    then description_html +:+ img (py_str (get_or_None event_details "image_url"))
    else description_html in
  if truthy (get_or_None event_details "city")
  then
    let description_html :=
      description_html +:+ "<p><strong>Location:</strong> " +:+
      py_str (get_or_None event_details "city") in
    let description_html :=
      if truthy (get_or_None event_details "country")
      then description_html +:+ ", " +:+ py_str (get_or_None event_details "country")
      else description_html in
    description_html +:+ "</p>"
  else description_html.

(** the date formats of an event date field, the body of the [try] *)
Definition event_datetime (date_str : value) : res datetime :=
  s ← as_str date_str;
  if endswith "Z" s then datetime_fromisoformat (replace "Z" "+00:00" s)
  else if contains "+" s then datetime_fromisoformat s
  else replace_tzinfo_utc <$> datetime_fromisoformat s.

(** the loop over the date fields: the timestamp of the first field that
    is there and parses; [ValueError] and [TypeError] move on to the
    next field *)
Fixpoint event_timestamp (date_fields : list string)
    (event_details : gmap string value) : res (option Z) :=
  match date_fields with
  | [] => Ok None
  | date_field :: rest =>
      if truthy (get_or_None event_details date_field)
      then
        match event_datetime (get_or_None event_details date_field) with
        | Ok event_datetime => Ok (Some (timestamp event_datetime))
        | Raise e =>
            if is_ValueError e || is_TypeError e
            then event_timestamp rest event_details
            else Raise e
        end
      else event_timestamp rest event_details
  end.

Definition date_fields : list string :=
  ["start_date"; "end_date"; "event_date"; "created_date"; "expiry_date"].

(** the item that [_add_event_description_item] fills in *)
Definition event_description_item (event_details : gmap string value) : M Element :=
  let item := new_Element "item" in
  let event_name := py_str (get event_details "name" (VStr "Unknown Event")) in
  let item := SubElement item "title" (event_name +:+ " Event Details") in
  let item := SubElement item "description"
                (CDATA (event_description_html event_details)) in
  let drop := "https://poap.gallery/drops/" +:+
              py_str (get event_details "id" (VStr "unknown")) in
  let item := SubElement item "guid" drop in
  let item := SubElement item "link" drop in
  found ← M.lift (event_timestamp date_fields event_details);
  event_timestamp ← match found with
                    | Some t => mret t
                    | None => M.time_time
                    end;
  mret (SubElement item "pubDate" (formatdate event_timestamp)).

(** The item is created under [channel] and filled in afterwards; an
    exception on the way leaves [generate_event_feed], so the channel is
    only seen with the finished item. *)
Definition _add_event_description_item (channel : Element)
    (event_details : gmap string value) : M Element :=
  item ← event_description_item event_details;
  mret (append channel item).

(** *** Claim items *)

Definition a_href (url body : string) : string :=
  "<a href=" +:+ dq +:+ url +:+ dq +:+ ">" +:+ body +:+ "</a>".

(** [ens_name if ens_name else f"{owner_address[:6]}...{owner_address[-4:]}"] *)
Definition claim_display_name (p : poap) : res string :=
  let owner_address := get (get_object (owner p)) "id" (VStr "unknown") in
  let ens_name := get (get_object (owner p)) "ens" (VStr EmptyString) in
  if truthy ens_name then Ok (py_str ens_name)
  else
    s ← subscript owner_address;
    Ok (slice_to 6 s +:+ "..." +:+ slice_last 4 s).

(** the body of a claim item, [description]; [event_details["image_url"]]
    raises [KeyError] when the event has no such member *)
Definition claim_description (p : poap) (display_name : string)
    (event_details : gmap string value) : res string :=
  let owner_address := py_str (get (get_object (owner p)) "id" (VStr "unknown")) in
  let token_id := py_str (get (members p) "id" (VStr "unknown")) in
  image_url ← getitem event_details "image_url";
  Ok (nl +:+ "        <p><strong>" +:+
      a_href ("https://collectors.poap.xyz/scan/" +:+ owner_address) display_name +:+
      "</strong>" +:+
      nl +:+ "        claimed POAP " +:+
      a_href ("https://collectors.poap.xyz/token/" +:+ token_id) token_id +:+
      " for " +:+
      nl +:+ "        <strong>" +:+
      a_href ("https://poap.gallery/drops/" +:+
              py_str (get event_details "id" (VStr "Unknown Event")))
             (py_str (get event_details "name" (VStr "Unknown Event"))) +:+
      "</strong></p>" +:+
      nl +:+ "        <p>" +:+ img (py_str image_url) +:+ "</p>" +:+
      nl +:+ "        ").

(** the date formats of the [created] member of a claim, the body of
    the [try] in [_add_claim_item] *)
Definition created_datetime (created_str : value) : res datetime :=
  s ← as_str created_str;
  if endswith "Z" s then datetime_fromisoformat (replace "Z" "+00:00" s)
  else if contains "+" s || endswith "UTC" s then
    d ← datetime_fromisoformat (replace "UTC" EmptyString s);
    Ok (match tzinfo d with
        | None => replace_tzinfo_utc d
        | Some _ => d
        end)
  else replace_tzinfo_utc <$> datetime_fromisoformat s.

(** the text of [pubDate] of a claim item *)
Definition claim_pubDate (p : poap) : M string :=
  if truthy (get_or_None (members p) "created")
  then
    match created_datetime (get_or_None (members p) "created") with
    | Ok created_datetime => mret (formatdate (timestamp created_datetime))
    | Raise e =>
        if is_ValueError e
        then now ← M.time_time; mret (formatdate now)
        else M.lift (Raise e)
    end
  else now ← M.time_time; mret (formatdate now).

(** the item that [_add_claim_item] fills in *)
Definition claim_item (p : poap) (event_details : gmap string value) : M Element :=
  let item := new_Element "item" in
  display_name ← M.lift (claim_display_name p);
  let token_id := py_str (get (members p) "id" (VStr "unknown")) in
  let item := SubElement item "title" EmptyString in
  let item := SubElement item "author" display_name in
  description ← M.lift (claim_description p display_name event_details);
  let item := SubElement item "description" (CDATA description) in
  let item := SubElement item "guid" ("https://collectors.poap.xyz/token/" +:+ token_id) in
  let item := SubElement item "link" ("https://collectors.poap.xyz/token/" +:+ token_id) in
  pubDate ← claim_pubDate p;
  mret (SubElement item "pubDate" pubDate).

Definition _add_claim_item (channel : Element) (p : poap)
    (event_details : gmap string value) : M Element :=
  item ← claim_item p event_details;
  mret (append channel item).

(** *** Address collection items *)

Definition address_poap_description (p : poap) : string :=
  let event_name := py_str (get (get_object (event p)) "name" (VStr "Unknown Event")) in
  let event_id := py_str (get (get_object (event p)) "id" (VStr "unknown")) in
  let event_image_url := py_str (get (get_object (event p)) "image_url" (VStr "unknown")) in
  let tokenId := py_str (get (members p) "tokenId" (VStr "unknown")) in
  nl +:+ "        <p>Collected POAP " +:+
  a_href ("https://collectors.poap.xyz/token/" +:+ tokenId) tokenId +:+
  " for <strong>" +:+
  a_href ("https://poap.gallery/drops/" +:+ event_id) event_name +:+
  "</strong>.</p>" +:+
  nl +:+ "        <p>" +:+ img event_image_url +:+ "</p>" +:+
  nl +:+ "        ".

(** the [pubDate] child of an address item, when one is added *)
Definition address_poap_pubDate (p : poap) : M (option string) :=
  if truthy (get_or_None (members p) "created")
  then
    match
      (s ← as_str (get_or_None (members p) "created");
       datetime_fromisoformat (replace "Z" "+00:00" s))
    with
    | Ok created_datetime => mret (Some (formatdate (timestamp created_datetime)))
    | Raise e =>
        if is_ValueError e
        then now ← M.time_time; mret (Some (formatdate now))
        else M.lift (Raise e)
    end
  else mret None.

(** the item that [_add_address_poap_item] fills in *)
Definition address_poap_item (p : poap) (address : string) : M Element :=
  let item := new_Element "item" in
  let item := SubElement item "title" EmptyString in
  let item := SubElement item "author" address in
  let item := SubElement item "description" (CDATA (address_poap_description p)) in
  let token_url := "https://collectors.poap.xyz/token/" +:+
                   py_str (get (members p) "tokenId" (VStr EmptyString)) in
  let item := SubElement item "guid" token_url in
  let item := SubElement item "link" token_url in
  pubDate ← address_poap_pubDate p;
  mret (match pubDate with
        | Some d => SubElement item "pubDate" d
        | None => item
        end).

Definition _add_address_poap_item (channel : Element) (p : poap)
    (address : string) : M Element :=
  item ← address_poap_item p address;
  mret (append channel item).

(** *** The inactivity alert *)

(** the date formats of [created] in the inactivity check, the body of
    its [try] up to the comparison *)
Definition claim_date (created_str : value) : res datetime :=
  s ← as_str created_str;
  if endswith "Z" s then datetime_fromisoformat (replace "Z" "+00:00" s)
  else if contains "+" s || endswith "UTC" s then
    d ← datetime_fromisoformat (replace "UTC" EmptyString s);
    Ok (match tzinfo d with
        | None => replace_tzinfo_utc d
        | Some _ => d
        end)
  else replace_tzinfo_utc <$> datetime_fromisoformat s.

(** [most_recent_claim is None or claim_date > most_recent_claim] *)
Definition is_more_recent (claim_date : datetime)
    (most_recent_claim : option datetime) : res bool :=
  match most_recent_claim with
  | None => Ok true
  | Some m => datetime_gt claim_date m
  end.

(** the loop that looks for the most recent claim date; a [ValueError]
    skips the claim, any other exception leaves the loop *)
Fixpoint most_recent_from (most_recent_claim : option datetime)
    (poaps : list poap) : res (option datetime) :=
  match poaps with
  | [] => Ok most_recent_claim
  | p :: rest =>
      if truthy (get_or_None (members p) "created")
      then
        match
          (d ← claim_date (get_or_None (members p) "created");
           newer ← is_more_recent d most_recent_claim;
           Ok (if newer : bool then Some d else most_recent_claim))
        with
        | Ok most_recent_claim => most_recent_from most_recent_claim rest
        | Raise e =>
            if is_ValueError e
            then most_recent_from most_recent_claim rest
            else Raise e
        end
      else most_recent_from most_recent_claim rest
  end.

(** [weeks_since_last_claim = (now - most_recent_claim).days // 7] *)
Definition weeks_since_last_claim (now : Z) (most_recent_claim : datetime) : res Z :=
  time_diff ← datetime_sub now most_recent_claim;
  Ok (timedelta_days time_diff / 7).

Definition inactivity_title (weeks_since_last_claim : Z) : string :=
  if weeks_since_last_claim =? INACTIVITY_THRESHOLD_WEEKS
  then "No POAP claims in the last " +:+ str_of_Z weeks_since_last_claim +:+ " weeks."
  else str_of_Z weeks_since_last_claim +:+ " weeks with no claims".

Definition inactivity_description (weeks_since_last_claim : Z)
    (most_recent_claim : datetime) : string :=
  nl +:+ "            <p>There have been no new POAP claims for this event in " +:+
  str_of_Z weeks_since_last_claim +:+ " weeks.</p>" +:+
  nl +:+ "            <p>The event may be over. Consider unsubscribing from this feed if no further activity is expected.</p>" +:+
  nl +:+ "            <p><em>Last claim was on " +:+ strftime_UTC most_recent_claim +:+ "</em></p>" +:+
  nl +:+ "            ".

Definition inactivity_guid (event_details : gmap string value)
    (weeks_since_last_claim : Z) : string :=
  "https://www.poap2rss.com/inactive.html?event=" +:+
  py_str (get event_details "id" (VStr "unknown")) +:+
  "&week=" +:+ str_of_Z weeks_since_last_claim.

(** the first half of [_check_and_add_inactivity_alert]: the most recent
    claim and the whole weeks from it to now, or [None] where the
    function returns early *)
Definition weeks_since_most_recent (poaps : list poap) : M (option (Z * datetime)) :=
  match poaps with
  | [] => mret None
  | _ =>
      most_recent_claim ← M.lift (most_recent_from None poaps);
      match most_recent_claim with
      | None => mret None
      | Some most_recent_claim =>
          now ← M.datetime_now;
          weeks ← M.lift (weeks_since_last_claim now most_recent_claim);
          mret (Some (weeks, most_recent_claim))
      end
  end.

(** the second half: the alert item, when the threshold is reached *)
Definition inactivity_item (event_details : gmap string value)
    (weeks_since_last_claim : Z) (most_recent_claim : datetime) : M Element :=
  let item := new_Element "item" in
  let item := SubElement item "title" (inactivity_title weeks_since_last_claim) in
  let item := SubElement item "description"
                (inactivity_description weeks_since_last_claim most_recent_claim) in
  let item := SubElement item "guid"
                (inactivity_guid event_details weeks_since_last_claim) in
  let item := SubElement item "link"
                (inactivity_guid event_details weeks_since_last_claim) in
  t ← M.time_time;
  mret (SubElement item "pubDate" (formatdate t)).

(** the alert of a claim list, if any *)
Definition inactivity_alert (event_details : gmap string value)
    (poaps : list poap) : M (option Element) :=
  checked ← weeks_since_most_recent poaps;
  match checked with
  | None => mret None
  | Some (weeks, most_recent_claim) =>
      if INACTIVITY_THRESHOLD_WEEKS <=? weeks
      then Some <$> inactivity_item event_details weeks most_recent_claim
      else mret None
  end.

Definition _check_and_add_inactivity_alert (channel : Element)
    (event_details : gmap string value) (poaps : list poap) : M Element :=
  alert ← inactivity_alert event_details poaps;
  mret (match alert with
        | Some item => append channel item
        | None => channel
        end).

(** *** Formatting *)

(** the loop over [getElementsByTagName('description')]: the children of
    every [description] element that has some are replaced by one CDATA
    section *)
Fixpoint descriptions_to_CDATA (n : Node) : res Node :=
  match n with
  | ElementNode tagName attributes childNodes =>
      if String.eqb tagName "description"
      then
        match childNodes with
        | [] => Ok n
        | _ =>
            datas ← res_mapM node_data childNodes;
            let text := join datas in
            let text := html_unescape text in
            Ok (ElementNode tagName attributes [CDATASection text])
        end
      else
        childNodes ← res_mapM descriptions_to_CDATA childNodes;
        Ok (ElementNode tagName attributes childNodes)
  | _ => Ok n
  end.

Definition _format_xml (root : Element) : res string :=
  parsed ← parseString_tostring root;
  parsed ← descriptions_to_CDATA parsed;
  toprettyxml parsed.

(** *** The two feeds *)

(** [Element('rss', version='2.0')] with the two namespace declarations *)
Definition new_rss : Element :=
  let rss := Elem "rss" [("version", "2.0")] None [] in
  let rss := set rss "xmlns:dc" "http://purl.org/dc/elements/1.1/" in
  set rss "xmlns:atom" "http://www.w3.org/2005/Atom".

(** the details that stand in when the fetch of the event fails *)
Definition fallback_event_details (event_id : Z) : gmap string value :=
  {[ "id" := VInt event_id;
     "name" := VStr ("POAP Event #" +:+ str_of_Z event_id);
     "description" := VStr "Event details unavailable" ]}.

(** the first [try] of [generate_event_feed] *)
Definition fetch_event_details (poap_client : POAPAPIClient) (event_id : Z)
    : gmap string value :=
  match get_event_details poap_client event_id with
  | Ok event_details => event_details
  | Raise _ => fallback_event_details event_id
  end.

(** the second [try] of [generate_event_feed] *)
Definition fetch_event_poaps (poap_client : POAPAPIClient) (event_id : Z)
    : list poap :=
  match get_event_poaps poap_client event_id with
  | Ok poaps => poaps
  | Raise _ => []
  end.

(** the channel of an event feed, as it is when [_format_xml] is called *)
Definition event_channel (event_details : gmap string value)
    (poaps : list poap) : M Element :=
  let channel := new_Element "channel" in
  channel ← _add_channel_metadata channel event_details "event";
  channel ← _add_event_description_item channel event_details;
  channel ← M.for_each (fun channel p => _add_claim_item channel p event_details)
                       poaps channel;
  _check_and_add_inactivity_alert channel event_details poaps.

Definition generate_event_feed (poap_client : POAPAPIClient) (event_id : Z)
    : M string :=
  let event_details := fetch_event_details poap_client event_id in
  let poaps := fetch_event_poaps poap_client event_id in
  channel ← event_channel event_details poaps;
  M.lift (_format_xml (append new_rss channel)).

(** the channel of an address feed, as it is when [_format_xml] is called *)
Definition address_channel (address : string) (poaps : list poap) : M Element :=
  let channel := new_Element "channel" in
  channel ← _add_address_channel_metadata channel address;
  M.for_each (fun channel p => _add_address_poap_item channel p address)
             (take MAX_CLAIMS_COUNT poaps) channel.

Definition generate_address_feed (poap_client : POAPAPIClient) (address : string)
    : M string :=
  poaps ← M.lift (get_address_poaps poap_client address);
  channel ← address_channel address poaps;
  M.lift (_format_xml (append new_rss channel)).

End RSSFeedGenerator.

(** ** Reading a feed back *)

(** The contents of the CDATA sections of a document, in order: a parser
    reads a section from [<![CDATA[] to the first [[]]>] that follows.
    [acc] holds the characters of the open section, last one first. *)
Fixpoint cdata_from (acc : option string) (skip : nat) (s : string) : list string :=
  match s with
  | EmptyString => []
  | String c s' =>
      match skip with
      | S k => cdata_from acc k s'
      | O =>
          match acc with
          | None =>
              if String.prefix "<![CDATA[" s then cdata_from (Some EmptyString) 8 s'
              else cdata_from None 0 s'
          | Some body =>
              if String.prefix "]]>" s
              then String.rev body :: cdata_from None 2 s'
              else cdata_from (Some (String c body)) 0 s'
          end
      end
  end.

Definition cdata_sections (xml : string) : list string := cdata_from None 0 xml.

(** ** The inactivity evaluation in the words of the specification *)

Module InactivityEvaluator.

Record InactivityNotice := {
  weeksSince : Z;
  mostRecent : Z;
  title : string }.

(** the maximum instant *)
Fixpoint maximum (instants : list Z) : option Z :=
  match instants with
  | [] => None
  | t :: rest =>
      match maximum rest with
      | Some m => Some (Z.max t m)
      | None => Some t
      end
  end.

(** the later of two instants, either of which may be missing *)
Definition later (a b : option Z) : option Z :=
  match a, b with
  | Some x, Some y => Some (Z.max x y)
  | Some x, None => Some x
  | None, _ => b
  end.

(** [weeksSince = floor((now - mostRecent) in days / 7)] *)
Definition weeks_between (mostRecent now : Z) : Z :=
  (now - mostRecent) / (7 * usec_per_day).

Definition notice_title (weeksSince thresholdWeeks : Z) : string :=
  if weeksSince =? thresholdWeeks
  then "No POAP claims in the last " +:+ str_of_Z weeksSince +:+ " weeks."
  else str_of_Z weeksSince +:+ " weeks with no claims".

(** [instants] are the claim timestamps that parse *)
Definition evaluate (instants : list Z) (thresholdWeeks now : Z)
    : option InactivityNotice :=
  match maximum instants with
  | None => None
  | Some mostRecent =>
      let weeksSince := weeks_between mostRecent now in
      if thresholdWeeks <=? weeksSince
      then Some {| weeksSince := weeksSince;
                   mostRecent := mostRecent;
                   title := notice_title weeksSince thresholdWeeks |}
      else None
  end.

End InactivityEvaluator.

Section ClaimInstants.

Variable fromisoformat : string -> option datetime.

(** the instant of the [created] member of a claim, when it is there and
    parses to a timezone-aware datetime *)
Definition claim_instant (p : poap) : option Z :=
  let created := get_or_None (members p) "created" in
  if truthy created
  then match claim_date fromisoformat created with
       | Ok d => utc_instant d
       | Raise _ => None
       end
  else None.

Definition claim_instants (poaps : list poap) : list Z := omap claim_instant poaps.

(** the [created] member of a claim is as the data model has it: absent
    or empty, or a string that either does not parse or parses to a
    timezone-aware datetime *)
Definition created_ok (p : poap) : bool :=
  let created := get_or_None (members p) "created" in
  if truthy created
  then match created with
       | VStr _ =>
           match claim_date fromisoformat created with
           | Ok d => bool_decide (is_Some (tzinfo d))
           | Raise _ => true
           end
       | _ => false
       end
  else true.

End ClaimInstants.

(** ** Statements about channels *)

(** what a builder does to the channel it is given: [new] is appended to
    its children *)
Definition extends (channel : Element) (new : list Element) (channel' : Element) : Prop :=
  channel' = Elem (tag channel) (attrib channel) (text channel) (children channel ++ new).

(** the children that [_add_channel_metadata] appends, [now] being the
    clock reading it takes *)
Definition event_channel_metadata (event_details : gmap string value) (now : Z)
    : list Element :=
  let event_name := py_str (get event_details "name" (VStr "Unknown Event")) in
  let event_id := py_str (get event_details "id" (VStr "unknown")) in
  [ Elem "title" [] (Some ("POAP: " +:+ event_name)) [];
    Elem "description" [] (Some ("Activity for " +:+ event_name +:+ " POAP drop.")) [];
    Elem "link" [] (Some ("https://poap.gallery/drops/" +:+ event_id)) [];
    Elem "language" [] (Some "en-us") [];
    Elem "lastBuildDate" [] (Some (formatdate now)) [];
    Elem "generator" [] (Some "POAP2RSS/1.0") [];
    Elem "atom:link"
         [("href", "https://app.poap2rss.com/event/" +:+ event_id);
          ("rel", "self"); ("type", "application/rss+xml")] None [] ].

(** ** Statements about documents *)

(** the attributes of the root element after parsing: the namespace
    declarations come first *)
Definition rss_attributes : list (string * string) :=
  [("xmlns:dc", "http://purl.org/dc/elements/1.1/");
   ("xmlns:atom", "http://www.w3.org/2005/Atom");
   ("version", "2.0")].

(** a feed document from its first character to the indentation that
    follows the line of the channel title *)
Definition channel_head (title : string) : string :=
  xml_declaration +:+ nl +:+
  "<rss" +:+ join (write_attribute <$> rss_attributes) +:+ ">" +:+ nl +:+
  "  <channel>" +:+ nl +:+
  "    <title>" +:+ write_data title +:+ "</title>" +:+ nl +:+
  "    ".

(** the texts of the channel description of the two feeds *)
Definition event_channel_description (event_details : gmap string value) : string :=
  "Activity for " +:+ py_str (get event_details "name" (VStr "Unknown Event")) +:+
  " POAP drop.".

Definition address_channel_description (address : string) : string :=
  "Latest POAP tokens for " +:+
  (slice_to 6 address +:+ "..." +:+ slice_last 4 address) +:+ ".".

(** ** Statements about the client *)

(** the client whose claims fetch answers with the empty list *)
Definition with_no_claims (poap_client : POAPAPIClient) : POAPAPIClient :=
  {| get_event_details := get_event_details poap_client;
     get_event_poaps := fun _ => Ok [];
     get_address_poaps := get_address_poaps poap_client |}.

(** ** Statements about the clock *)

(** [m] takes its readings one after the other from the position it is
    started at, and reads the clock nowhere else: a clock that agrees
    with [c] on the readings taken gives the same result *)
Definition reads_what_it_takes {A} (m : M A) : Prop :=
  forall (c c' : clock) (n : nat),
    (n <= (m c n).2)%nat /\
    ((forall i, (n <= i < (m c n).2)%nat -> c' i = c i) -> m c' n = m c n).
(** the texts of the [pubDate] children of the items of a channel *)
Definition pubDates (channel : Element) : list (option string) :=
  findtext "pubDate" <$> items channel.

(** ** More of Python's strings *)

(** [s.lstrip(c)] and [s.rstrip(c)] for a single character [c] *)
Fixpoint lstrip (c : ascii) (s : string) : string :=
  match s with
  | EmptyString => EmptyString
  | String a s' => if Ascii.eqb a c then lstrip c s' else s
  end.

Fixpoint rstrip (c : ascii) (s : string) : string :=
  match s with
  | EmptyString => EmptyString
  | String a s' =>
      match rstrip c s' with
      | EmptyString => if Ascii.eqb a c then EmptyString else String a EmptyString
      | r => String a r
      end
  end.

(** [s.strip(c)] *)
Definition strip (c : ascii) (s : string) : string := rstrip c (lstrip c s).

(** [s.split(c)]: the pieces between the occurrences of [c]; there is
    always at least one piece *)
Fixpoint split (c : ascii) (s : string) : list string :=
  match s with
  | EmptyString => [EmptyString]
  | String a s' =>
      if Ascii.eqb a c then EmptyString :: split c s'
      else match split c s' with
           | piece :: pieces => String a piece :: pieces
           | [] => [String a EmptyString]
           end
  end.

(** *** [int]

    [int(s)] for a string, base ten: white space around, an optional sign,
    digits, single underscores between digits.  [None] stands for
    [ValueError].  CPython also rejects strings of more than 4300 digits. *)

Module PyInt.

Definition is_space (a : ascii) : bool :=
  let n := nat_of_ascii a in ((9 <=? n) && (n <=? 13) || (n =? 32))%nat.

Fixpoint lstrip_space (s : string) : string :=
  match s with
  | EmptyString => EmptyString
  | String a s' => if is_space a then lstrip_space s' else s
  end.

Fixpoint rstrip_space (s : string) : string :=
  match s with
  | EmptyString => EmptyString
  | String a s' =>
      match rstrip_space s' with
      | EmptyString => if is_space a then EmptyString else String a EmptyString
      | r => String a r
      end
  end.

(** the digits of [s] read after [acc]; [after_digit] tells whether the
    character before was a digit, which an underscore and the end need *)
Fixpoint digits (acc : Z) (after_digit : bool) (s : string) : option Z :=
  match s with
  | EmptyString => if after_digit then Some acc else None
  | String a s' =>
      if Ascii.eqb a "_" then (if after_digit then digits acc false s' else None)
      else match Iso.digit a with
           | Some d => digits (10 * acc + d) true s'
           | None => None
           end
  end.

Definition int (s : string) : option Z :=
  match rstrip_space (lstrip_space s) with
  | String "-" s' => Z.opp <$> digits 0 false s'
  | String "+" s' => digits 0 false s'
  | s' => digits 0 false s'
  end.

End PyInt.

(** ** [CacheManager] *)

Definition CACHE_DURATION_MINUTES : Z := 15.

(** An item of the cache table.  [item_data] is the [rss_xml] member of
    the [data] map, the only member that is written; [item_cached_at] is
    the instant that [cached_at] writes in ISO format and
    [datetime.fromisoformat] reads back. *)
Record cache_item := {
  item_data : string;
  item_cached_at : Z;
  item_ttl : Z }.

(** whether the calls to the table answer or raise [ClientError] *)
Record dynamodb := {
  get_item_answers : bool;
  put_item_answers : bool }.

(** [get_cache_key] *)
Definition get_cache_key (feed_type identifier : string) : string :=
  feed_type +:+ ":" +:+ identifier.

(** [timedelta(minutes=CACHE_DURATION_MINUTES)], in microseconds *)
Definition cache_duration : Z := CACHE_DURATION_MINUTES * 60 * usec_per_second.

(** [get_cached_data]: the clock is read when the key has an item *)
Definition get_cached_data (db : dynamodb) (table : gmap string cache_item)
    (cache_key : string) : M (option string) :=
  if get_item_answers db
  then
    match table !! cache_key with
    | None => mret None
    | Some item =>
        now ← M.datetime_now;
        if now - item_cached_at item <? cache_duration
        then mret (Some (item_data item))
        else mret None
    end
  else mret None.

(** [set_cached_data]: the item is built, with two readings of the clock,
    before [put_item] is called; the table after the call is returned *)
Definition set_cached_data (db : dynamodb) (table : gmap string cache_item)
    (cache_key : string) (rss_xml : string) : M (gmap string cache_item) :=
  now ← M.datetime_now;
  t ← M.time_time;
  let item := {| item_data := rss_xml;
                 item_cached_at := now;
                 item_ttl := Z.quot t usec_per_second + CACHE_DURATION_MINUTES * 60 |} in
  if put_item_answers db
  then mret (<[cache_key := item]> table)
  else mret table.

(** ** [lambda_handler] *)

Record response := {
  statusCode : Z;
  headers : list (string * string);
  body : string }.

(** a response whose body is [json.dumps({'error': message})]; [message]
    is written as it will stand between the quotes *)
Definition error_response (status : Z) (message : string) : response :=
  {| statusCode := status;
     headers := [("Content-Type", "application/json")];
     body := "{" +:+ dq +:+ "error" +:+ dq +:+ ": " +:+ dq +:+ message +:+ dq +:+ "}" |}.

Definition invalid_path : response :=
  error_response 400 "Invalid path. Use /event/{id} or /address/{address}".

Definition invalid_feed_type : response :=
  error_response 400
    ("Feed type must be \" +:+ dq +:+ "event\" +:+ dq +:+ " or \" +:+ dq +:+
     "address\" +:+ dq).

Definition invalid_event_id : response :=
  error_response 400 "Event ID must be a number".

Definition internal_server_error : response :=
  error_response 500 "Internal server error".

Definition rss_response (rss_xml : string) : response :=
  {| statusCode := 200;
     headers := [("Content-Type", "application/rss+xml; charset=utf-8");
                 ("Cache-Control", "max-age=" +:+ str_of_Z (CACHE_DURATION_MINUTES * 60))];
     body := rss_xml |}.

Section Handler.

Variable fromisoformat : string -> option datetime.
Variable html_unescape : string -> string.
Variable INACTIVITY_THRESHOLD_WEEKS : Z.

(** [int], [None] standing for [ValueError] *)
Variable int : string -> option Z.

(** The fresh feed of a request.  For an event the [try] holds the
    conversion of the identifier and the generation, and its handler
    catches [ValueError] from either; the result is the feed, or the
    response that ends the request, or an exception for the outer
    handler. *)
Definition fresh_feed (poap_client : POAPAPIClient) (feed_type identifier : string)
    : M (string + response) :=
  if String.eqb feed_type "event"
  then
    match int identifier with
    | None => mret (inr invalid_event_id)
    | Some event_id =>
        fun c taken =>
          match generate_event_feed fromisoformat html_unescape
                  INACTIVITY_THRESHOLD_WEEKS poap_client event_id c taken with
          | (Ok rss_xml, taken') => (Ok (inl rss_xml), taken')
          | (Raise e, taken') =>
              if is_ValueError e then (Ok (inr invalid_event_id), taken')
              else (Raise e, taken')
          end
    end
  else
    inl <$> generate_address_feed fromisoformat html_unescape poap_client identifier.

(** the body of the [try] of [lambda_handler]: the response and the
    table after the request *)
Definition handle (poap_client : POAPAPIClient) (db : dynamodb)
    (event : gmap string value) (table : gmap string cache_item)
    : M (response * gmap string cache_item) :=
  path ← M.lift (as_str (get event "path" (VStr EmptyString)));
  let path_parts := split "/" (strip "/" path) in
  match path_parts with
  | feed_type :: identifier :: _ =>
      if negb (String.eqb feed_type "event" || String.eqb feed_type "address")
      then mret (invalid_feed_type, table)
      else
        let cache_key := get_cache_key feed_type identifier in
        cached_data ← get_cached_data db table cache_key;
        match cached_data with
        | Some rss_xml => mret (rss_response rss_xml, table)
        | None =>
            fresh ← fresh_feed poap_client feed_type identifier;
            match fresh with
            | inr early => mret (early, table)
            | inl rss_xml =>
                table ← set_cached_data db table cache_key rss_xml;
                mret (rss_response rss_xml, table)
            end
        end
  | _ => mret (invalid_path, table)
  end.

(** [lambda_handler]: any exception that leaves the [try] is answered
    with status 500, and the table is as it was *)
Definition lambda_handler (poap_client : POAPAPIClient) (db : dynamodb)
    (event : gmap string value) (table : gmap string cache_item)
    (c : clock) : response * gmap string cache_item :=
  match (handle poap_client db event table c 0%nat).1 with
  | Ok answer => answer
  | Raise _ => (internal_server_error, table)
  end.

End Handler.

(** ** Statements about requests *)

(** the feed kind and the identifier of a request that passes the checks
    of [lambda_handler] *)
Definition request_parts (event : gmap string value) : option (string * string) :=
  match get event "path" (VStr EmptyString) with
  | VStr path =>
      match split "/" (strip "/" path) with
      | feed_type :: identifier :: _ =>
          if String.eqb feed_type "event" || String.eqb feed_type "address"
          then Some (feed_type, identifier)
          else None
      | _ => None
      end
  | _ => None
  end.

(** the table answers every call *)
Definition answering : dynamodb :=
  {| get_item_answers := true; put_item_answers := true |}.

(** what [get_cached_data] returns at the instant [now] *)
Definition cache_lookup (db : dynamodb) (table : gmap string cache_item)
    (cache_key : string) (now : Z) : option string :=
  if get_item_answers db
  then
    match table !! cache_key with
    | Some item =>
        if now - item_cached_at item <? cache_duration
        then Some (item_data item) else None
    | None => None
    end
  else None.

(** the item that [set_cached_data] builds *)
Definition new_cache_item (rss_xml : string) (now t : Z) : cache_item :=
  {| item_data := rss_xml;
     item_cached_at := now;
     item_ttl := Z.quot t usec_per_second + CACHE_DURATION_MINUTES * 60 |}.

(** ** Statements about upstream data *)




Section NoDate.

Variable fromisoformat : string -> option datetime.


End NoDate.

(** ** Statements about escaping *)

(** what [_escape_cdata] writes for one character *)
Definition escape_char (c : ascii) : string :=
  if Ascii.eqb c "&" then "&amp;"
  else if Ascii.eqb c "<" then "&lt;"
  else if Ascii.eqb c ">" then "&gt;"
  else String c EmptyString.

(** ** [POAPAPIClient._get_access_token] *)

(** what a call raises: an exception of [exn], or the [OverflowError] of
    [timedelta] and of the addition to a [datetime] *)
Inductive token_exn :=
| Exn (e : exn)
| OverflowError.

Inductive token_result :=
| Returns (token : value)
| Raises (e : token_exn).

(** the members [access_token] and [token_expires_at] of the client; the
    expiry is an instant in microseconds, [None] as long as it is not set *)
Record token_state := {
  access_token : value;
  token_expires_at : option Z }.

(** the client as [__init__] leaves it *)
Definition new_token_state : token_state :=
  {| access_token := VNone; token_expires_at := None |}.

(** [timedelta(seconds=n)] for an [int], in microseconds: the days must
    have a magnitude of at most 999999999 *)
Definition timedelta_seconds (n : Z) : option Z :=
  if Z.abs (n / 86400) <=? 999999999 then Some (n * usec_per_second) else None.

(** the instants of the years 1 to 9999 *)
Definition datetime_in_range (t : Z) : bool :=
  (days_from_civil 1 1 1 * usec_per_day <=? t) &&
  (t <? days_from_civil 10000 1 1 * usec_per_day).

(** The outcome of a call: the result, the members of the client after
    it, the number of requests made to the token endpoint, and the number
    of readings of the clock. *)
Record token_outcome := {
  token_result_of : token_result;
  token_state_of : token_state;
  posts_of : nat;
  readings_of : nat }.

(** the part of [_get_access_token] after the check: the request, and
    what is made of the answer.  [post n] is the answer to the request
    number [n]: the decoded JSON object, or what [post],
    [raise_for_status] or [json] raises.  The token is stored before the
    expiry is computed, and the clock is read before the [timedelta] is
    built. *)
Definition refresh_access_token (post : nat -> res (gmap string value))
    (self : token_state) (posts : nat) (c : clock) (taken : nat) : token_outcome :=
  match post posts with
  | Raise e =>
      {| token_result_of := Raises (Exn e); token_state_of := self;
         posts_of := S posts; readings_of := taken |}
  | Ok token_data =>
      match token_data !! "access_token" with
      | None =>
          {| token_result_of := Raises (Exn (KeyError "access_token"));
             token_state_of := self;
             posts_of := S posts; readings_of := taken |}
      | Some token =>
          let stored := {| access_token := token;
                           token_expires_at := token_expires_at self |} in
          let now := c taken in
          let raises e :=
            {| token_result_of := Raises e; token_state_of := stored;
               posts_of := S posts; readings_of := S taken |} in
          match get token_data "expires_in" (VInt 3600) with
          | VInt expires_in =>
              match timedelta_seconds (expires_in - 300) with
              | None => raises OverflowError
              | Some delta =>
                  if datetime_in_range (now + delta)
                  then {| token_result_of := Returns token;
                          token_state_of :=
                            {| access_token := token;
                               token_expires_at := Some (now + delta) |};
                          posts_of := S posts; readings_of := S taken |}
                  else raises OverflowError
              end
          | _ => raises (Exn TypeError)
          end
      end
  end.

(** [_get_access_token]: the clock is read for the check when a token and
    an expiry are stored *)
Definition _get_access_token (post : nat -> res (gmap string value))
    (self : token_state) (posts : nat) (c : clock) (taken : nat) : token_outcome :=
  if truthy (access_token self)
  then
    match token_expires_at self with
    | Some expires =>
        if c taken <? expires
        then {| token_result_of := Returns (access_token self);
                token_state_of := self;
                posts_of := posts; readings_of := S taken |}
        else refresh_access_token post self posts c (S taken)
    | None => refresh_access_token post self posts c taken
    end
  else refresh_access_token post self posts c taken.

(** ** Sample data *)

Module Sample.

(** the wall clock at 2025-10-09 08:53:20 UTC, one second on at each reading *)
Definition ticking : clock := fun n => (1760000000 + Z.of_nat n) * usec_per_second.

(** a clock that stands still *)
Definition frozen (now : Z) : clock := fun _ => now.

Definition details : gmap string value :=
  {[ "id" := VInt 12345;
     "name" := VStr "Tom &amp; Jerry";
     "description" := VStr "A <b>party</b>";
     "image_url" := VStr "https://img.example/x.png";
     "city" := VStr "Paris";
     "country" := VStr "France";
     "start_date" := VStr "2025-07-01T10:00:00Z" ]}.

(** the same event, its start date with a [UTC] suffix *)
Definition details_UTC : gmap string value :=
  <[ "start_date" := VStr "2025-07-03 03:55:35UTC" ]> details.

Definition claim1 : poap :=
  {| members := {[ "id" := VInt 7; "created" := VStr "2025-07-03 03:55:35" ]};
     owner := Some {[ "id" := VStr "0x1234567890abcdef" ]};
     event := None |}.

Definition claim2 : poap :=
  {| members := {[ "id" := VStr "8"; "created" := VStr "2025-07-04T03:55:35Z" ]};
     owner := Some {[ "id" := VStr "0xfedcba0987654321"; "ens" := VStr "tom.eth" ]};
     event := None |}.


(** a token of an address collection, without a [created] member *)
Definition token : poap :=
  {| members := {[ "tokenId" := VStr "4242" ]};
     owner := None;
     event := Some {[ "id" := VInt 12345; "name" := VStr "Tom and Jerry";
                      "image_url" := VStr "https://img.example/x.png" ]} |}.

Definition address : string := "0x1234567890abcdef1234567890abcdef12345678".

(** every fetch answers *)
Definition client : POAPAPIClient :=
  {| get_event_details := fun _ => Ok details;
     get_event_poaps := fun _ => Ok [claim1; claim2];
     get_address_poaps := fun _ => Ok [token] |}.

(** the event details cannot be fetched, the claims can *)
Definition client_without_details : POAPAPIClient :=
  {| get_event_details := fun _ => Raise RequestException;
     get_event_poaps := fun _ => Ok [claim1; claim2];
     get_address_poaps := fun _ => Ok [token] |}.

(** the claims and the collection cannot be fetched *)
Definition client_without_poaps : POAPAPIClient :=
  {| get_event_details := fun _ => Ok details;
     get_event_poaps := fun _ => Raise RequestException;
     get_address_poaps := fun _ => Raise RequestException |}.

Definition generator_event (poap_client : POAPAPIClient) (c : clock) : res string :=
  M.run (generate_event_feed Iso.fromisoformat Html.unescape 4 poap_client 12345) c.

Definition generator_address (poap_client : POAPAPIClient) (c : clock) : res string :=
  M.run (generate_address_feed Iso.fromisoformat Html.unescape poap_client address) c.

(** the feed of the sample event and the feed of the sample address *)
Definition event_xml : string :=
  Eval vm_compute in
    match generator_event client ticking with Ok xml => xml | Raise _ => EmptyString end.

Definition address_xml : string :=
  Eval vm_compute in
    match generator_address client ticking with Ok xml => xml | Raise _ => EmptyString end.

(** the feed of the sample event when its claims cannot be fetched *)
Definition event_xml_without_poaps : string :=
  Eval vm_compute in
    match generator_event client_without_poaps ticking with
    | Ok xml => xml
    | Raise _ => EmptyString
    end.

(** the channel of the sample event with its two claims *)
Definition channel : Element :=
  Eval vm_compute in
    match (event_channel Iso.fromisoformat 4 details [claim1; claim2] ticking 0%nat).1 with
    | Ok channel => channel
    | Raise _ => new_Element EmptyString
    end.

(** the channel of the event whose start date has a [UTC] suffix,
    without claims *)
Definition channel_UTC : Element :=
  Eval vm_compute in
    match (event_channel Iso.fromisoformat 4 details_UTC [] ticking 0%nat).1 with
    | Ok channel => channel
    | Raise _ => new_Element EmptyString
    end.

(** a clock that is thirty days ahead of [ticking] *)
Definition ticking_later : clock := fun n => ticking n + 30 * usec_per_day.

(** a clock that agrees with [ticking] on its first four readings *)
Definition ticking_then_zero : clock :=
  fun n => if (n <? 4)%nat then ticking n else 0.

End Sample.

(** ** Sample requests *)

Module Request.

(** a request for the feed of the sample event *)
Definition event_request : gmap string value := {[ "path" := VStr "/event/12345" ]}.

(** a table that holds a feed for that request, stored one minute before
    the first reading of [Sample.ticking] *)
Definition stored : gmap string cache_item :=
  {[ "event:12345" :=
       {| item_data := Sample.event_xml_without_poaps;
          item_cached_at := Sample.ticking 0%nat - 60 * usec_per_second;
          item_ttl := 1760000840 |} ]}.

(** an event whose name holds the end mark of a CDATA section *)
Definition details_end_mark : gmap string value :=
  <[ "name" := VStr "a]]>b" ]> Sample.details.

Definition client_end_mark : POAPAPIClient :=
  {| get_event_details := fun _ => Ok details_end_mark;
     get_event_poaps := fun _ => Ok [];
     get_address_poaps := fun _ => Ok [] |}.

(** a claim whose timestamp is a date followed by [Z] *)
Definition claim_date_only : poap :=
  {| members := {[ "id" := VInt 10; "created" := VStr "2025-07-03Z" ]};
     owner := Some {[ "id" := VStr "0x1234567890abcdef" ]};
     event := None |}.

(** a token endpoint that gives a token for an hour, and one whose token
    lasts four minutes *)
Definition token_endpoint : nat -> res (gmap string value) :=
  fun _ => Ok {[ "access_token" := VStr "eyJhbGciOi"; "expires_in" := VInt 3600 ]}.

Definition short_token : gmap string value :=
  {[ "access_token" := VStr "eyJhbGciOi"; "expires_in" := VInt 240 ]}.

Definition short_token_endpoint : nat -> res (gmap string value) :=
  fun _ => Ok short_token.

End Request.

(** * Properties *)

(** ** Computations *)

Ltac unfold_monad :=
  unfold mbind, mret, fmap, M_bind, M_ret, M_fmap, res_bind, res_ret, res_fmap,
    M.bind, M.ret, M.lift, M.time_time, M.datetime_now, Res.map, Res.bind in *.

Lemma M_bind_Ok {A B} (m : M A) (k : A -> M B) c n b n' :
  (m ≫= k) c n = (Ok b, n') ->
  exists a n1, m c n = (Ok a, n1) /\ k a c n1 = (Ok b, n').
Proof.
  unfold_monad. destruct (m c n) as [[a|e] n1]; [eauto | discriminate].
Qed.

Lemma M_bind_step {A B} (m : M A) (k : A -> M B) c n a n1 :
  m c n = (Ok a, n1) -> (m ≫= k) c n = k a c n1.
Proof. unfold_monad. by intros ->. Qed.

Lemma M_bind_raise {A B} (m : M A) (k : A -> M B) c n e n1 :
  m c n = (Raise e, n1) -> (m ≫= k) c n = (Raise e, n1).
Proof. unfold_monad. by intros ->. Qed.

Lemma res_bind_Ok {A B} (m : res A) (k : A -> res B) b :
  (m ≫= k) = Ok b -> exists a, m = Ok a /\ k a = Ok b.
Proof. unfold_monad. destruct m; [eauto | discriminate]. Qed.

Lemma res_mapM_Ok_cons {A B} (f : A -> res B) x l ys :
  res_mapM f (x :: l) = Ok ys ->
  exists y ys', ys = y :: ys' /\ f x = Ok y /\ res_mapM f l = Ok ys'.
Proof.
  simpl. destruct (f x); [|discriminate].
  destruct (res_mapM f l); [|discriminate].
  intros [= <-]. eauto.
Qed.

(** ** The shape of the channel *)

Section Channel.

Variable fromisoformat : string -> option datetime.
Variable INACTIVITY_THRESHOLD_WEEKS : Z.

Lemma extends_trans ch l1 ch1 l2 ch2 :
  extends ch l1 ch1 -> extends ch1 l2 ch2 -> extends ch (l1 ++ l2) ch2.
Proof. unfold extends. intros -> ->. simpl. by rewrite app_assoc. Qed.

Lemma event_description_item_tag d c n it n' :
  event_description_item fromisoformat d c n = (Ok it, n') -> tag it = "item".
Proof.
  unfold event_description_item. intros H.
  apply M_bind_Ok in H as (found & n1 & _ & H).
  apply M_bind_Ok in H as (t & n2 & _ & H).
  unfold_monad. by injection H as <- _.
Qed.


Lemma claim_item_tag p d c n it n' :
  claim_item fromisoformat p d c n = (Ok it, n') -> tag it = "item".
Proof.
  unfold claim_item. intros H.
  apply M_bind_Ok in H as (name & n1 & _ & H).
  apply M_bind_Ok in H as (body & n2 & _ & H).
  apply M_bind_Ok in H as (pubDate & n3 & _ & H).
  unfold_monad. by injection H as <- _.
Qed.

Lemma inactivity_item_tag d w m c n it n' :
  inactivity_item INACTIVITY_THRESHOLD_WEEKS d w m c n = (Ok it, n') -> tag it = "item".
Proof. unfold inactivity_item. unfold_monad. by intros [= <- _]. Qed.

Lemma inactivity_alert_tag d poaps c n it n' :
  inactivity_alert fromisoformat INACTIVITY_THRESHOLD_WEEKS d poaps c n = (Ok (Some it), n') ->
  tag it = "item".
Proof.
  unfold inactivity_alert. intros H.
  apply M_bind_Ok in H as ([[w m]|] & n1 & _ & H); [|by unfold_monad].
  destruct (INACTIVITY_THRESHOLD_WEEKS <=? w); [|by unfold_monad].
  unfold fmap, M_fmap in H.
  change (M.bind ?m ?k) with (m ≫= k) in H.
  apply M_bind_Ok in H as (it' & n2 & Hit & H).
  unfold_monad. injection H as <- _. by eapply inactivity_item_tag.
Qed.

Lemma add_channel_metadata_extends ch d ft c n :
  exists ch',
    _add_channel_metadata ch d ft c n = (Ok ch', S n) /\
    extends ch (event_channel_metadata d (c n)) ch'.
Proof.
  unfold _add_channel_metadata. unfold_monad. cbv zeta.
  eexists. split; [reflexivity|].
  unfold extends, SubElement, append. simpl.
  by rewrite <- !app_assoc.
Qed.

Lemma add_event_description_item_extends ch d c n ch' n' :
  _add_event_description_item fromisoformat ch d c n = (Ok ch', n') ->
  exists it, event_description_item fromisoformat d c n = (Ok it, n') /\ extends ch [it] ch'.
Proof.
  unfold _add_event_description_item. intros H.
  apply M_bind_Ok in H as (it & n1 & Hit & H).
  unfold_monad. injection H as <- <-. by exists it.
Qed.

(** a loop that adds one item for each element of a list: the items
    come in the order of the list, each built at some point of the
    invocation *)
Lemma for_each_extends {A} (g : A -> M Element) l : forall ch c n ch' n',
  M.for_each (fun channel x => item ← g x; mret (append channel item)) l ch c n
    = (Ok ch', n') ->
  exists its,
    extends ch its ch' /\
    Forall2 (fun x it => exists k k', g x c k = (Ok it, k')) l its.
Proof.
  induction l as [|x l IH]; intros ch c n ch' n' H.
  - simpl in H. unfold_monad. injection H as <- <-.
    exists []. split; [|constructor].
    unfold extends. rewrite app_nil_r. by destruct ch.
  - simpl in H. change (M.bind ?m ?k) with (m ≫= k) in H.
    apply M_bind_Ok in H as (ch1 & n1 & Hadd & H).
    apply M_bind_Ok in Hadd as (it & n2 & Hit & Hadd).
    unfold_monad. injection Hadd as <- <-.
    apply IH in H as (its & Hext & Hall).
    exists (it :: its). split.
    + unfold extends in *. rewrite Hext. simpl. by rewrite <- app_assoc.
    + constructor; eauto.
Qed.

Lemma add_claim_items_extends d poaps ch c n ch' n' :
  M.for_each (fun channel p => _add_claim_item fromisoformat channel p d) poaps ch c n
    = (Ok ch', n') ->
  exists its,
    extends ch its ch' /\
    Forall2 (fun p it => exists k k', claim_item fromisoformat p d c k = (Ok it, k'))
            poaps its.
Proof. apply (for_each_extends (fun p => claim_item fromisoformat p d)). Qed.

Lemma check_and_add_inactivity_alert_extends ch d poaps c n ch' n' :
  _check_and_add_inactivity_alert fromisoformat INACTIVITY_THRESHOLD_WEEKS ch d poaps c n
    = (Ok ch', n') ->
  exists alert,
    inactivity_alert fromisoformat INACTIVITY_THRESHOLD_WEEKS d poaps c n = (Ok alert, n') /\
    extends ch (option_list alert) ch'.
Proof.
  unfold _check_and_add_inactivity_alert. intros H.
  apply M_bind_Ok in H as (alert & n1 & Halert & H).
  unfold_monad. injection H as <- <-.
  exists alert. split; [done|].
  unfold extends. destruct alert; simpl; [done|].
  rewrite app_nil_r. by destruct ch.
Qed.


Lemma filter_items_all (l : list Element) :
  Forall (fun e => tag e = "item") l ->
  List.filter (fun e => String.eqb (tag e) "item") l = l.
Proof.
  induction 1 as [|e l He _ IH]; [done|].
  simpl. rewrite He. simpl. by rewrite IH.
Qed.

Lemma claim_items_tags d c poaps its :
  Forall2 (fun p it => exists k k', claim_item fromisoformat p d c k = (Ok it, k')) poaps its ->
  Forall (fun e => tag e = "item") its.
Proof.
  induction 1 as [|p it poaps its (k & k' & Hit) _ IH]; constructor; [|done].
  by eapply claim_item_tag.
Qed.

(** the children of the channel of an event feed *)
Lemma event_channel_extends d poaps c n ch n' :
  event_channel fromisoformat INACTIVITY_THRESHOLD_WEEKS d poaps c n = (Ok ch, n') ->
  exists description claims alert,
    extends (new_Element "channel")
      (event_channel_metadata d (c n) ++ [description] ++ claims ++ option_list alert) ch /\
    (exists k k', event_description_item fromisoformat d c k = (Ok description, k')) /\
    Forall2 (fun p it => exists k k', claim_item fromisoformat p d c k = (Ok it, k'))
            poaps claims /\
    (exists k, inactivity_alert fromisoformat INACTIVITY_THRESHOLD_WEEKS d poaps c k
               = (Ok alert, n')).
Proof.
  unfold event_channel. intros H.
  apply M_bind_Ok in H as (ch1 & n1 & Hmeta & H).
  apply M_bind_Ok in H as (ch2 & n2 & Hdesc & H).
  apply M_bind_Ok in H as (ch3 & n3 & Hclaims & H).
  destruct (add_channel_metadata_extends (new_Element "channel") d "event" c n)
    as (ch1' & Hmeta' & Hext1).
  rewrite Hmeta in Hmeta'. injection Hmeta' as -> ->.
  apply add_event_description_item_extends in Hdesc as (description & Hdesc & Hext2).
  apply add_claim_items_extends in Hclaims as (claims & Hext3 & Hall).
  apply check_and_add_inactivity_alert_extends in H as (alert & Halert & Hext4).
  pose proof (extends_trans _ _ _ _ _ (extends_trans _ _ _ _ _
                (extends_trans _ _ _ _ _ Hext1 Hext2) Hext3) Hext4) as Hext.
  rewrite <- !app_assoc in Hext.
  exists description, claims, alert. eauto 10.
Qed.

(** the items of the channel of an event feed *)
Lemma event_channel_items d poaps c n ch n' :
  event_channel fromisoformat INACTIVITY_THRESHOLD_WEEKS d poaps c n = (Ok ch, n') ->
  exists description claims alert,
    items ch = description :: claims ++ option_list alert /\
    (exists k k', event_description_item fromisoformat d c k = (Ok description, k')) /\
    Forall2 (fun p it => exists k k', claim_item fromisoformat p d c k = (Ok it, k'))
            poaps claims /\
    (exists k, inactivity_alert fromisoformat INACTIVITY_THRESHOLD_WEEKS d poaps c k
               = (Ok alert, n')).
Proof.
  intros H.
  apply event_channel_extends in H
    as (description & claims & alert & Hext & Hdesc & Hall & k & Halert).
  exists description, claims, alert.
  split; [|eauto].
  destruct Hdesc as (kd & kd' & Hdesc).
  unfold extends in Hext. rewrite Hext. unfold items. simpl.
  rewrite (event_description_item_tag _ _ _ _ _ Hdesc). simpl.
  rewrite List.filter_app. f_equal. f_equal.
  - apply filter_items_all. by eapply claim_items_tags.
  - apply filter_items_all. destruct alert as [it|]; constructor; [|done].
    by eapply inactivity_alert_tag.
Qed.

(** without claims there is no alert *)
Lemma inactivity_alert_nil d c k :
  inactivity_alert fromisoformat INACTIVITY_THRESHOLD_WEEKS d [] c k = (Ok None, k).
Proof. reflexivity. Qed.

(** the channel of an event without claims holds the description item
    and no other item *)
Lemma event_channel_items_nil d c n ch n' :
  event_channel fromisoformat INACTIVITY_THRESHOLD_WEEKS d [] c n = (Ok ch, n') ->
  exists description,
    items ch = [description] /\
    exists k k', event_description_item fromisoformat d c k = (Ok description, k').
Proof.
  intros H.
  apply event_channel_items in H
    as (description & claims & alert & Hitems & Hdesc & Hall & k & Halert).
  inversion Hall; subst.
  rewrite inactivity_alert_nil in Halert. injection Halert as <- _.
  by exists description.
Qed.

(** C8. The items of an event feed are, in this order: the event
    description item, one claim item for each claim record in the order
    of the records, and at most one inactivity item; a feed without
    claims has the description item alone. *)
Theorem event_feed_item_sequence d poaps c n ch n' :
  event_channel fromisoformat INACTIVITY_THRESHOLD_WEEKS d poaps c n = (Ok ch, n') ->
  exists description claims alert,
    items ch = description :: claims ++ option_list alert /\
    (exists k k', event_description_item fromisoformat d c k = (Ok description, k')) /\
    Forall2 (fun p it => exists k k', claim_item fromisoformat p d c k = (Ok it, k'))
            poaps claims /\
    (exists k k', inactivity_alert fromisoformat INACTIVITY_THRESHOLD_WEEKS d poaps c k
                  = (Ok alert, k')) /\
    (poaps = [] -> items ch = [description]).
Proof.
  intros H.
  pose proof (event_channel_items _ _ _ _ _ _ H)
    as (description & claims & alert & Hitems & Hdesc & Hall & k & Halert).
  exists description, claims, alert.
  split; [done|]. split; [done|]. split; [done|]. split; [eauto|].
  intros ->. inversion Hall; subst.
  rewrite inactivity_alert_nil in Halert. injection Halert as <- _.
  by rewrite Hitems.
Qed.

(** the channel of an event feed starts with its title and description *)
Lemma event_channel_head d poaps c n ch n' :
  event_channel fromisoformat INACTIVITY_THRESHOLD_WEEKS d poaps c n = (Ok ch, n') ->
  exists rest,
    ch = Elem "channel" [] None
           (Elem "title" [] (Some ("POAP: " +:+
                                   py_str (get d "name" (VStr "Unknown Event")))) [] ::
            Elem "description" [] (Some (event_channel_description d)) [] :: rest).
Proof.
  intros H.
  apply event_channel_extends in H as (description & claims & alert & Hext & _).
  unfold extends in Hext. simpl in Hext. rewrite Hext. eauto.
Qed.

(** the channel of an address feed starts with its title and description *)
Lemma address_channel_head address poaps c n ch n' :
  address_channel fromisoformat address poaps c n = (Ok ch, n') ->
  exists rest,
    ch = Elem "channel" [] None
           (Elem "title" [] (Some ("POAP: " +:+
                                   (slice_to 6 address +:+ "..." +:+ slice_last 4 address)
                                   +:+ " Collection")) [] ::
            Elem "description" [] (Some (address_channel_description address)) [] :: rest).
Proof.
  unfold address_channel. intros H.
  apply M_bind_Ok in H as (ch1 & n1 & Hmeta & H).
  apply (for_each_extends (fun p => address_poap_item fromisoformat p address)) in H
    as (its & Hext & _).
  unfold _add_address_channel_metadata in Hmeta. unfold_monad.
  injection Hmeta as <- _.
  unfold extends in Hext. simpl in Hext. rewrite Hext. eauto.
Qed.

End Channel.

(** ** The inactivity check *)

Section Inactivity.

Variable fromisoformat : string -> option datetime.
Variable INACTIVITY_THRESHOLD_WEEKS : Z.

Import InactivityEvaluator.

Lemma datetime_fromisoformat_Raise s e :
  datetime_fromisoformat fromisoformat s = Raise e -> e = ValueError.
Proof.
  unfold datetime_fromisoformat. destruct (fromisoformat s); [discriminate|].
  by intros [= <-].
Qed.

(** parsing a string raises nothing but [ValueError] *)
Lemma claim_date_Raise s e :
  claim_date fromisoformat (VStr s) = Raise e -> e = ValueError.
Proof.
  unfold claim_date. unfold_monad. simpl.
  destruct (endswith "Z" s); [apply datetime_fromisoformat_Raise|].
  destruct (contains "+" s || endswith "UTC" s).
  - destruct (datetime_fromisoformat fromisoformat (replace "UTC" EmptyString s)) eqn:E;
      [discriminate|].
    intros [= <-]. by eapply datetime_fromisoformat_Raise.
  - destruct (datetime_fromisoformat fromisoformat s) eqn:E; [discriminate|].
    intros [= <-]. by eapply datetime_fromisoformat_Raise.
Qed.

Lemma maximum_later t rest :
  maximum (t :: rest) = later (Some t) (maximum rest).
Proof. simpl. by destruct (maximum rest). Qed.

Lemma later_assoc a b c : later (later a b) c = later a (later b c).
Proof.
  destruct a, b, c; simpl; try done. by rewrite Z.max_assoc.
Qed.

(** the loop keeps a timezone-aware datetime whose instant is the
    maximum of the instants seen *)
Lemma most_recent_from_maximum poaps : forall acc,
  forallb (created_ok fromisoformat) poaps = true ->
  (forall m, acc = Some m -> is_Some (tzinfo m)) ->
  exists r,
    most_recent_from fromisoformat acc poaps = Ok r /\
    (forall m, r = Some m -> is_Some (tzinfo m)) /\
    r ≫= utc_instant = later (acc ≫= utc_instant) (maximum (claim_instants fromisoformat poaps)).
Proof.
  induction poaps as [|p poaps IH]; intros acc Hok Hacc.
  - exists acc. simpl. repeat split; [done|]. by destruct (acc ≫= utc_instant).
  - simpl in Hok. apply andb_prop in Hok as [Hp Hok].
    unfold claim_instants. simpl.
    unfold created_ok, claim_instant in *.
    destruct (truthy (get_or_None (members p) "created")); [|by apply IH].
    destruct (get_or_None (members p) "created") as [| |s] eqn:Hcreated; try discriminate.
    destruct (claim_date fromisoformat (VStr s)) as [d|e] eqn:Hdate.
    + apply bool_decide_eq_true in Hp as [off Hoff].
      assert (Hnewer : exists newer,
                 is_more_recent d acc = Ok newer /\
                 (if newer then Some d else acc) ≫= utc_instant
                 = later (acc ≫= utc_instant) (utc_instant d)).
      { destruct acc as [m|]; simpl.
        - destruct (Hacc m eq_refl) as [offm Hm].
          unfold datetime_gt, utc_instant. rewrite Hoff, Hm.
          eexists. split; [done|].
          destruct (Z.ltb_spec (wall m - offm) (wall d - off)); simpl;
            unfold utc_instant; rewrite ?Hoff, ?Hm; f_equal; lia.
        - exists true. split; [done|]. simpl. by destruct (utc_instant d). }
      destruct Hnewer as (newer & Hnewer & Hinst).
      unfold_monad. rewrite Hnewer.
      destruct (IH (if newer then Some d else acc) Hok) as (r & Hr & Haware & Hmax).
      { intros m Hm. destruct newer; [|by apply Hacc].
        injection Hm as <-. by exists off. }
      assert (Hd : utc_instant d = Some (wall d - off))
        by (unfold utc_instant; by rewrite Hoff).
      exists r. repeat split; [done|done|].
      unfold_monad. rewrite Hmax, Hinst, Hd, later_assoc. f_equal.
    + apply claim_date_Raise in Hdate as ->. unfold_monad. simpl. by apply IH.
Qed.


(** the week count of the code, the floor of the floor, is the floor of
    the quotient by seven days *)
Lemma weeks_since_last_claim_between now m off :
  tzinfo m = Some off ->
  weeks_since_last_claim now m = Ok (weeks_between (wall m - off) now).
Proof.
  intros Hoff. unfold weeks_since_last_claim, datetime_sub. rewrite Hoff.
  unfold_monad. unfold timedelta_days, weeks_between.
  rewrite Z.div_div by (unfold usec_per_day, usec_per_second; lia).
  by rewrite (Z.mul_comm usec_per_day 7).
Qed.

(** C6. For claims whose [created] members are as the data model has
    them, the inactivity check adds exactly one item when the whole weeks
    from the latest parsable claim instant to now reach the threshold,
    with the title of the specification, and adds nothing otherwise, and
    nothing when there is no claim or no parsable timestamp. *)
Theorem inactivity_alert_evaluates ch d poaps c n :
  forallb (created_ok fromisoformat) poaps = true ->
  match evaluate (claim_instants fromisoformat poaps) INACTIVITY_THRESHOLD_WEEKS (c n) with
  | None =>
      exists n',
        _check_and_add_inactivity_alert fromisoformat INACTIVITY_THRESHOLD_WEEKS
          ch d poaps c n = (Ok ch, n')
  | Some notice =>
      exists item,
        _check_and_add_inactivity_alert fromisoformat INACTIVITY_THRESHOLD_WEEKS
          ch d poaps c n = (Ok (append ch item), S (S n)) /\
        tag item = "item" /\
        findtext "title" item = Some (title notice) /\
        findtext "guid" item = Some (inactivity_guid d (weeksSince notice)) /\
        findtext "link" item = Some (inactivity_guid d (weeksSince notice)) /\
        findtext "pubDate" item = Some (formatdate (c (S n)))
  end.
Proof.
  intros Hok.
  unfold _check_and_add_inactivity_alert, inactivity_alert, weeks_since_most_recent.
  destruct poaps as [|p poaps]; [by exists n|].
  destruct (most_recent_from_maximum (p :: poaps) None Hok) as (r & Hr & Haware & Hmax);
    [done|].
  change (r ≫= utc_instant = maximum (claim_instants fromisoformat (p :: poaps))) in Hmax.
  unfold evaluate. rewrite <- Hmax.
  unfold_monad. rewrite Hr.
  destruct r as [m|]; simpl; [|by exists n].
  destruct (Haware m eq_refl) as [off Hoff].
  rewrite (weeks_since_last_claim_between _ _ _ Hoff).
  unfold utc_instant. rewrite Hoff.
  destruct (INACTIVITY_THRESHOLD_WEEKS <=? _); [|by exists (S n)].
  eexists. split; [reflexivity|]. by repeat split.
Qed.


Lemma append_inj_l (p a b : string) : p +:+ a = p +:+ b -> a = b.
Proof. induction p as [|ch p IH]; simpl; [done|]. intros [= H]. by apply IH. Qed.

(** different integers are written differently *)
Lemma str_of_Z_inj (a b : Z) : str_of_Z a = str_of_Z b -> a = b.
Proof.
  unfold str_of_Z. intros H. apply DecimalZ.to_int_inj.
  assert (Hnil : forall z, Z.to_int z <> Decimal.Pos Decimal.Nil /\
                           Z.to_int z <> Decimal.Neg Decimal.Nil).
  { intros [|p|p]; simpl; split; try discriminate;
      intros [= Hp]; by apply DecimalPos.Unsigned.to_uint_nonnil in Hp. }
  destruct (Hnil a) as [Ha1 Ha2], (Hnil b) as [Hb1 Hb2].
  pose proof (NilZero.isi _ Ha1 Ha2) as Ea.
  pose proof (NilZero.isi _ Hb1 Hb2) as Eb.
  rewrite H in Ea. rewrite Ea in Eb. by injection Eb.
Qed.

Lemma weeks_between_mono mostRecent now1 now2 :
  now1 <= now2 -> weeks_between mostRecent now1 <= weeks_between mostRecent now2.
Proof.
  intros H. unfold weeks_between.
  apply Z.div_le_mono; [unfold usec_per_day, usec_per_second|]; lia.
Qed.

(** C7. With the claims fixed, the week count of the inactivity check
    does not decrease when the clock reading grows, an alert that is
    raised at one reading is raised at every later one, and alerts of
    different week counts have different guids. *)
Theorem inactivity_monotonic_in_now d poaps (c1 c2 : clock) n w1 m k :
  c1 n <= c2 n ->
  weeks_since_most_recent fromisoformat poaps c1 n = (Ok (Some (w1, m)), k) ->
  exists w2,
    weeks_since_most_recent fromisoformat poaps c2 n = (Ok (Some (w2, m)), k) /\
    w1 <= w2 /\
    (INACTIVITY_THRESHOLD_WEEKS <= w1 ->
     INACTIVITY_THRESHOLD_WEEKS <= w2 /\
     exists item1 item2,
       inactivity_alert fromisoformat INACTIVITY_THRESHOLD_WEEKS d poaps c1 n
         = (Ok (Some item1), S k) /\
       inactivity_alert fromisoformat INACTIVITY_THRESHOLD_WEEKS d poaps c2 n
         = (Ok (Some item2), S k) /\
       findtext "guid" item1 = Some (inactivity_guid d w1) /\
       findtext "guid" item2 = Some (inactivity_guid d w2)) /\
    (forall w w', inactivity_guid d w = inactivity_guid d w' -> w = w').
Proof.
  intros Hnow H.
  assert (Hguid : forall w w', inactivity_guid d w = inactivity_guid d w' -> w = w').
  { unfold inactivity_guid. intros w w' E.
    apply append_inj_l, append_inj_l, append_inj_l in E. by apply str_of_Z_inj. }
  unfold inactivity_alert.
  unfold weeks_since_most_recent in *.
  destruct poaps as [|p poaps]; [by unfold_monad|].
  unfold_monad.
  destruct (most_recent_from fromisoformat None (p :: poaps)) as [[m'|]|e];
    try discriminate.
  unfold weeks_since_last_claim, datetime_sub in *. unfold_monad.
  destruct (tzinfo m') as [off|]; [|discriminate].
  injection H as <- <- <-.
  eexists. split; [reflexivity|].
  assert (Hle : timedelta_days (c1 n - (wall m' - off)) / 7
                <= timedelta_days (c2 n - (wall m' - off)) / 7).
  { unfold timedelta_days.
    apply Z.div_le_mono; [lia|].
    apply Z.div_le_mono; [unfold usec_per_day, usec_per_second|]; lia. }
  split; [done|]. split; [|done].
  intros Hthr. split; [lia|].
  destruct (Z.leb_spec INACTIVITY_THRESHOLD_WEEKS
              (timedelta_days (c1 n - (wall m' - off)) / 7)); [|lia].
  destruct (Z.leb_spec INACTIVITY_THRESHOLD_WEEKS
              (timedelta_days (c2 n - (wall m' - off)) / 7)); [|lia].
  do 2 eexists. by repeat split.
Qed.

End Inactivity.

(** ** Formatting *)

Section Formatting.

Variable html_unescape : string -> string.

Lemma append_String ch (a b : string) : String ch a +:+ b = String ch (a +:+ b).
Proof. reflexivity. Qed.

Lemma append_nil_l (a : string) : EmptyString +:+ a = a.
Proof. reflexivity. Qed.

Lemma append_assoc (a b c : string) : (a +:+ b) +:+ c = a +:+ (b +:+ c).
Proof. induction a as [|ch a IH]; [done|]. by rewrite !append_String, IH. Qed.

Lemma append_nil_r (a : string) : a +:+ EmptyString = a.
Proof. induction a as [|ch a IH]; [done|]. by rewrite append_String, IH. Qed.

Lemma new_rss_eq :
  new_rss = Elem "rss" [("version", "2.0");
                        ("xmlns:dc", "http://purl.org/dc/elements/1.1/");
                        ("xmlns:atom", "http://www.w3.org/2005/Atom")] None [].
Proof. reflexivity. Qed.

(** the parser on an element without text *)
Lemma parse_element tg attrs kids node :
  parseString_tostring (Elem tg attrs None kids) = Ok node ->
  exists attrs' kids',
    res_mapM attribute_value attrs = Ok attrs' /\
    res_mapM parseString_tostring kids = Ok kids' /\
    node = ElementNode tg
             (List.filter is_xmlns attrs' ++
              List.filter (fun kv => negb (is_xmlns kv)) attrs') kids'.
Proof.
  simpl. intros H.
  apply res_bind_Ok in H as (attrs' & Hattrs & H).
  apply res_bind_Ok in H as (kids' & Hkids & [= <-]).
  by exists attrs', kids'.
Qed.

(** the parser on an element that has a text and nothing else *)
Lemma parse_leaf tg t node :
  String.eqb t EmptyString = false ->
  parseString_tostring (Elem tg [] (Some t) []) = Ok node ->
  exists d,
    character_data 0 (escape_cdata t) = Ok d /\
    node = ElementNode tg [] [TextNode d].
Proof.
  simpl. intros -> H.
  apply res_bind_Ok in H as (tn & Ht & H).
  apply res_bind_Ok in Ht as (d & Hd & [= <-]).
  injection H as <-. by exists d.
Qed.

(** the loop of [_format_xml] on an element that is not a description *)
Lemma descriptions_to_CDATA_element tg attrs kids node :
  String.eqb tg "description" = false ->
  descriptions_to_CDATA html_unescape (ElementNode tg attrs kids) = Ok node ->
  exists kids',
    res_mapM (descriptions_to_CDATA html_unescape) kids = Ok kids' /\
    node = ElementNode tg attrs kids'.
Proof.
  simpl. intros -> H.
  apply res_bind_Ok in H as (kids' & Hkids & [= <-]). by exists kids'.
Qed.

(** the loop of [_format_xml] on a description that holds a text *)
Lemma descriptions_to_CDATA_description attrs d :
  descriptions_to_CDATA html_unescape (ElementNode "description" attrs [TextNode d])
  = Ok (ElementNode "description" attrs [CDATASection (html_unescape d)]).
Proof. simpl. unfold_monad. simpl. by rewrite append_nil_r. Qed.

(** the parser on the root element of a feed *)
Lemma parse_rss kids node :
  parseString_tostring
    (Elem "rss" [("version", "2.0");
                 ("xmlns:dc", "http://purl.org/dc/elements/1.1/");
                 ("xmlns:atom", "http://www.w3.org/2005/Atom")] None kids) = Ok node ->
  exists kids',
    res_mapM parseString_tostring kids = Ok kids' /\
    node = ElementNode "rss" rss_attributes kids'.
Proof.
  intros H. apply parse_element in H as (attrs & kids' & [= <-] & Hkids & ->).
  by exists kids'.
Qed.

(** the printer on an element that holds one text *)
Lemma writexml_text indent addindent newl tg attrs d :
  writexml indent addindent newl (ElementNode tg attrs [TextNode d])
  = Ok (indent +:+ "<" +:+ tg +:+ join (write_attribute <$> attrs) +:+ ">" +:+
        write_data d +:+ "</" +:+ tg +:+ ">" +:+ newl).
Proof. simpl. unfold_monad. by rewrite append_nil_l, append_nil_r, !append_assoc. Qed.

(** the printer on an element that holds one CDATA section *)
Lemma writexml_CDATA indent addindent newl tg attrs d :
  writexml indent addindent newl (ElementNode tg attrs [CDATASection d])
  = if contains "]]>" d then Raise ValueError
    else Ok (indent +:+ "<" +:+ tg +:+ join (write_attribute <$> attrs) +:+ ">" +:+
             ("<![CDATA[" +:+ d +:+ "]]>") +:+ "</" +:+ tg +:+ ">" +:+ newl).
Proof.
  simpl. unfold_monad. destruct (contains "]]>" d); [done|].
  by rewrite !append_assoc.
Qed.

(** the printer on an element whose first child is an element *)
Lemma writexml_children indent addindent newl tg attrs t a k kids :
  writexml indent addindent newl (ElementNode tg attrs (ElementNode t a k :: kids))
  = (bodies ← res_mapM (writexml (indent +:+ addindent) addindent newl)
                       (ElementNode t a k :: kids);
     Ok (indent +:+ "<" +:+ tg +:+ join (write_attribute <$> attrs) +:+ ">" +:+ newl +:+
         join bodies +:+ indent +:+ "</" +:+ tg +:+ ">" +:+ newl)).
Proof.
  cbn [writexml]. unfold_monad.
  destruct (res_mapM _ _); [|done]. by rewrite !append_assoc.
Qed.

(** A channel that starts with a title and a description, each with a
    text: the description is written as one CDATA section, right after
    the line of the title. *)
Lemma format_xml_channel_description title_text description_text rest xml :
  String.eqb title_text EmptyString = false ->
  String.eqb description_text EmptyString = false ->
  _format_xml html_unescape
    (append new_rss
       (Elem "channel" [] None
          (Elem "title" [] (Some title_text) [] ::
           Elem "description" [] (Some description_text) [] :: rest))) = Ok xml ->
  exists title data after,
    character_data 0 (escape_cdata title_text) = Ok title /\
    character_data 0 (escape_cdata description_text) = Ok data /\
    xml = channel_head title +:+
          "<description><![CDATA[" +:+ html_unescape data +:+ "]]></description>" +:+
          after.
Proof.
  intros Htitle Hdesc H.
  unfold _format_xml in H.
  apply res_bind_Ok in H as (parsed & Hparsed & H).
  apply res_bind_Ok in H as (parsed' & Hcdata & H).
  (* the parser *)
  rewrite new_rss_eq in Hparsed. unfold append in Hparsed.
  cbn [tag attrib text children app] in Hparsed.
  apply parse_rss in Hparsed as (kids & Hkids & ->).
  apply res_mapM_Ok_cons in Hkids as (channel & ? & -> & Hchannel & [= <-]).
  apply parse_element in Hchannel as (? & kids & [= <-] & Hkids & ->).
  apply res_mapM_Ok_cons in Hkids as (t & kids1 & -> & Ht & Hkids).
  apply res_mapM_Ok_cons in Hkids as (dn & kids2 & -> & Hdn & Hkids).
  apply parse_leaf in Ht as (title & Htitle' & ->); [|done].
  apply parse_leaf in Hdn as (data & Hdata & ->); [|done].
  (* the loop over the descriptions *)
  apply descriptions_to_CDATA_element in Hcdata as (kids' & Hkids' & ->); [|done].
  apply res_mapM_Ok_cons in Hkids' as (channel' & ? & -> & Hchannel' & [= <-]).
  apply descriptions_to_CDATA_element in Hchannel' as (kids' & Hkids' & ->); [|done].
  apply res_mapM_Ok_cons in Hkids' as (t' & kids1' & -> & Ht' & Hkids').
  apply res_mapM_Ok_cons in Hkids' as (dn' & kids2' & -> & Hdn' & Hkids').
  injection Ht' as <-.
  rewrite descriptions_to_CDATA_description in Hdn'. injection Hdn' as <-.
  (* the printer *)
  unfold toprettyxml in H.
  apply res_bind_Ok in H as (body & Hbody & [= <-]).
  cbn [List.filter app] in Hbody.
  rewrite writexml_children in Hbody.
  apply res_bind_Ok in Hbody as (bodies & Hbodies & [= <-]).
  apply res_mapM_Ok_cons in Hbodies as (cbody & ? & -> & Hcbody & [= <-]).
  rewrite writexml_children in Hcbody.
  apply res_bind_Ok in Hcbody as (lines & Hlines & [= <-]).
  apply res_mapM_Ok_cons in Hlines as (tline & lines1 & -> & Htline & Hlines).
  apply res_mapM_Ok_cons in Hlines as (dline & lines2 & -> & Hdline & Hlines).
  rewrite writexml_text in Htline. injection Htline as <-.
  rewrite writexml_CDATA in Hdline.
  destruct (contains "]]>" (html_unescape data)); [discriminate|].
  injection Hdline as <-.
  exists title, data. eexists. split; [done|]. split; [done|].
  unfold channel_head. cbn [join foldr fmap list_fmap].
  rewrite !append_assoc. reflexivity.
Qed.

End Formatting.

(** ** The two feeds *)

Section Feeds.

Variable fromisoformat : string -> option datetime.
Variable html_unescape : string -> string.
Variable INACTIVITY_THRESHOLD_WEEKS : Z.

Lemma generate_event_feed_Ok poap_client event_id c xml :
  M.run (generate_event_feed fromisoformat html_unescape INACTIVITY_THRESHOLD_WEEKS
           poap_client event_id) c = Ok xml ->
  exists channel n',
    event_channel fromisoformat INACTIVITY_THRESHOLD_WEEKS
      (fetch_event_details poap_client event_id)
      (fetch_event_poaps poap_client event_id) c 0%nat = (Ok channel, n') /\
    _format_xml html_unescape (append new_rss channel) = Ok xml.
Proof.
  unfold M.run, generate_event_feed. unfold_monad.
  destruct (event_channel _ _ _ _ c 0%nat) as [[channel|e] n']; [|discriminate].
  simpl. intros H. by exists channel, n'.
Qed.

Lemma generate_address_feed_Ok poap_client address c xml :
  M.run (generate_address_feed fromisoformat html_unescape poap_client address) c = Ok xml ->
  exists poaps channel n',
    get_address_poaps poap_client address = Ok poaps /\
    address_channel fromisoformat address poaps c 0%nat = (Ok channel, n') /\
    _format_xml html_unescape (append new_rss channel) = Ok xml.
Proof.
  unfold M.run, generate_address_feed. unfold_monad.
  destruct (get_address_poaps poap_client address) as [poaps|e]; [|discriminate].
  destruct (address_channel _ _ _ c 0%nat) as [[channel|e] n'] eqn:E; [|discriminate].
  simpl. intros H. by exists poaps, channel, n'.
Qed.

(** C10. In every feed that is generated, of an event or of an address,
    the description of the channel, the element that follows the channel
    title, is written as one CDATA section; its content is the text of
    the description after the parser and [html.unescape]. *)
Theorem channel_description_is_CDATA poap_client c xml :
  (forall event_id,
     M.run (generate_event_feed fromisoformat html_unescape INACTIVITY_THRESHOLD_WEEKS
              poap_client event_id) c = Ok xml ->
     exists title data after,
       character_data 0
         (escape_cdata (event_channel_description
                          (fetch_event_details poap_client event_id))) = Ok data /\
       xml = channel_head title +:+
             "<description><![CDATA[" +:+ html_unescape data +:+ "]]></description>" +:+
             after) /\
  (forall address,
     M.run (generate_address_feed fromisoformat html_unescape poap_client address) c
       = Ok xml ->
     exists title data after,
       character_data 0 (escape_cdata (address_channel_description address)) = Ok data /\
       xml = channel_head title +:+
             "<description><![CDATA[" +:+ html_unescape data +:+ "]]></description>" +:+
             after).
Proof.
  split.
  - intros event_id H.
    apply generate_event_feed_Ok in H as (channel & n' & Hchannel & Hxml).
    apply event_channel_head in Hchannel as (rest & ->).
    apply format_xml_channel_description in Hxml
      as (title & data & after & _ & Hdata & ->); [|done|done].
    by exists title, data, after.
  - intros address H.
    apply generate_address_feed_Ok in H as (poaps & channel & n' & _ & Hchannel & Hxml).
    apply address_channel_head in Hchannel as (rest & ->).
    apply format_xml_channel_description in Hxml
      as (title & data & after & _ & Hdata & ->); [|done|done].
    by exists title, data, after.
Qed.


(** the description item of the stand-in details takes its date from
    the clock and raises nothing *)
Lemma fallback_event_description_item event_id c n :
  exists item,
    event_description_item fromisoformat (fallback_event_details event_id) c n
    = (Ok item, S n).
Proof. eexists. reflexivity. Qed.

(** With the stand-in details, the first claim item raises: the details
    have no [image_url] member. *)
Lemma fallback_claim_item_raises event_id p c n :
  exists e n',
    claim_item fromisoformat p (fallback_event_details event_id) c n = (Raise e, n').
Proof.
  unfold claim_item. unfold_monad.
  destruct (claim_display_name p) as [name|e]; [|by eauto].
  unfold claim_description. unfold_monad.
  by exists (KeyError "image_url"), n.
Qed.

(** When the details fetch fails and the claims fetch answers with at
    least one claim, no feed is generated. *)
Lemma generate_event_feed_without_details poap_client event_id e p poaps c :
  get_event_details poap_client event_id = Raise e ->
  get_event_poaps poap_client event_id = Ok (p :: poaps) ->
  exists e', M.run (generate_event_feed fromisoformat html_unescape
                      INACTIVITY_THRESHOLD_WEEKS poap_client event_id) c = Raise e'.
Proof.
  intros Hdetails Hpoaps.
  destruct (add_channel_metadata_extends (new_Element "channel")
              (fallback_event_details event_id) "event" c 0%nat) as (ch1 & Hmeta & _).
  destruct (fallback_event_description_item event_id c 1%nat) as (item & Hitem).
  destruct (fallback_claim_item_raises event_id p c 2%nat) as (e' & n' & Hclaim).
  exists e'.
  unfold M.run, generate_event_feed, fetch_event_details, fetch_event_poaps.
  rewrite Hdetails, Hpoaps.
  erewrite M_bind_raise; [done|].
  unfold event_channel.
  erewrite M_bind_step by exact Hmeta.
  erewrite M_bind_step;
    [|unfold _add_event_description_item; erewrite M_bind_step by exact Hitem;
      reflexivity].
  apply M_bind_raise. simpl.
  change (M.bind ?m ?k) with (m ≫= k).
  apply M_bind_raise. unfold _add_claim_item. by apply M_bind_raise.
Qed.

(** C5, amended. When the claims of an event cannot be fetched, the
    empty list stands in: the event feed is generated as for an event
    without claims, and its channel holds the description item and no
    other item.  When the collection of an address cannot be fetched,
    [generate_address_feed] raises what the fetch raised. *)
Theorem claims_fetch_failure poap_client (c : clock) :
  (forall event_id e,
     get_event_poaps poap_client event_id = Raise e ->
     generate_event_feed fromisoformat html_unescape INACTIVITY_THRESHOLD_WEEKS
       poap_client event_id c 0%nat
     = generate_event_feed fromisoformat html_unescape INACTIVITY_THRESHOLD_WEEKS
         (with_no_claims poap_client) event_id c 0%nat /\
     (forall channel n',
        event_channel fromisoformat INACTIVITY_THRESHOLD_WEEKS
          (fetch_event_details poap_client event_id)
          (fetch_event_poaps poap_client event_id) c 0%nat = (Ok channel, n') ->
        exists description, items channel = [description])) /\
  (forall address e,
     get_address_poaps poap_client address = Raise e ->
     generate_address_feed fromisoformat html_unescape poap_client address c 0%nat
     = (Raise e, 0%nat)).
Proof.
  split.
  - intros event_id e H. split.
    + unfold generate_event_feed, fetch_event_poaps, fetch_event_details.
      simpl. by rewrite H.
    + intros channel n'. unfold fetch_event_poaps. rewrite H. intros Hch.
      apply event_channel_items_nil in Hch as (description & Hitems & _).
      by exists description.
  - intros address e H. unfold generate_address_feed.
    apply M_bind_raise. unfold M.lift. by rewrite H.
Qed.

End Feeds.

(** ** The feeds of the sample data *)

(** C1. When the event details cannot be fetched and the claims fetch
    answers with two records, [generate_event_feed] does not return a
    feed: the stand-in details have no [image_url] member, and the first
    claim item raises [KeyError]. *)
Theorem fallback_details_break_claim_items :
  Sample.generator_event Sample.client_without_details Sample.ticking
  = Raise (KeyError "image_url").
Proof. vm_compute. reflexivity. Qed.

(** C2. The date formats are not the same everywhere: a timestamp with a
    [UTC] suffix is read as a UTC time where the [created] member of a
    claim is read, in the claim item and in the inactivity check, and is
    rejected where an event date is read, so that the event description
    item of such an event is dated by the clock. *)
Theorem event_dates_lack_the_UTC_rule :
  let date_str := VStr "2025-07-03 03:55:35UTC" in
  let parsed := {| wall := 1751514935 * usec_per_second; tzinfo := Some 0 |} in
  created_datetime Iso.fromisoformat date_str = Ok parsed /\
  claim_date Iso.fromisoformat date_str = Ok parsed /\
  event_datetime Iso.fromisoformat date_str = Raise ValueError /\
  event_timestamp Iso.fromisoformat date_fields Sample.details_UTC = Ok None /\
  (exists item,
     event_description_item Iso.fromisoformat Sample.details_UTC Sample.ticking 1%nat
       = (Ok item, 2%nat) /\
     findtext "pubDate" item = Some (formatdate (Sample.ticking 1%nat))).
Proof.
  cbv zeta.
  split; [vm_compute; reflexivity|].
  split; [vm_compute; reflexivity|].
  split; [vm_compute; reflexivity|].
  split; [vm_compute; reflexivity|].
  eexists. split; vm_compute; reflexivity.
Qed.

(** C3. The text of a description does not come back as the item builder
    produced it when it holds an entity: the body of the sample event
    holds [Tom &amp; Jerry], and the CDATA sections of the feed hold
    [Tom & Jerry]. *)
Theorem description_entity_text_is_unescaped :
  let body := event_description_html Sample.details in
  Sample.generator_event Sample.client_without_poaps Sample.ticking
    = Ok Sample.event_xml_without_poaps /\
  contains "Tom &amp; Jerry" body = true /\
  cdata_sections Sample.event_xml_without_poaps
    = [Html.unescape (event_channel_description Sample.details); Html.unescape body] /\
  Html.unescape body = replace "&amp;" "&" body /\
  ~ In body (cdata_sections Sample.event_xml_without_poaps).
Proof.
  cbv zeta.
  split; [vm_compute; reflexivity|].
  split; [vm_compute; reflexivity|].
  split; [vm_compute; reflexivity|].
  split; [vm_compute; reflexivity|].
  intros H. vm_compute in H.
  destruct H as [H|[H|[]]]; apply (f_equal String.length) in H;
    vm_compute in H; discriminate H.
Qed.

(** C4. An item of an address feed has no [pubDate] when its record has
    no [created] member: the clock is not read and no element is added. *)
Theorem address_item_without_created_has_no_pubDate :
  (exists item,
     address_poap_item Iso.fromisoformat Sample.token Sample.address Sample.ticking 1%nat
       = (Ok item, 1%nat) /\
     findtext "pubDate" item = None) /\
  Sample.generator_address Sample.client Sample.ticking = Ok Sample.address_xml /\
  contains "<item>" Sample.address_xml = true /\
  contains "<pubDate>" Sample.address_xml = false.
Proof.
  repeat split; try (vm_compute; reflexivity).
  eexists. split; vm_compute; reflexivity.
Qed.

(** C5, as the specification states it, fails on the address feed: when
    the collection cannot be fetched, no feed is produced. *)
Lemma address_feed_fetch_failure_propagates :
  ~ exists xml, Sample.generator_address Sample.client_without_poaps Sample.ticking = Ok xml.
Proof. intros [xml H]. vm_compute in H. discriminate H. Qed.

(** ** The clock *)

Section Clock.

Variable fromisoformat : string -> option datetime.
Variable html_unescape : string -> string.
Variable INACTIVITY_THRESHOLD_WEEKS : Z.

Lemma reads_ret {A} (a : A) : reads_what_it_takes (mret a : M A).
Proof. intros c c' n. split; [simpl; lia|done]. Qed.

Lemma reads_lift {A} (r : res A) : reads_what_it_takes (M.lift r).
Proof. intros c c' n. split; [simpl; lia|done]. Qed.

Lemma reads_time_time : reads_what_it_takes M.time_time.
Proof.
  intros c c' n. split; [simpl; lia|].
  intros H. unfold M.time_time. f_equal. f_equal. apply H. simpl. lia.
Qed.

Lemma reads_bind {A B} (m : M A) (k : A -> M B) :
  reads_what_it_takes m -> (forall a, reads_what_it_takes (k a)) ->
  reads_what_it_takes (m ≫= k).
Proof.
  intros Hm Hk c c' n.
  destruct (Hm c c' n) as [Hle Heq].
  unfold mbind, M_bind, M.bind.
  destruct (m c n) as [[a|e] n1] eqn:E; simpl in *.
  - destruct (Hk a c c' n1) as [Hle' Heq'].
    split; [lia|]. intros H.
    rewrite Heq by (intros i Hi; apply H; lia).
    apply Heq'. intros i Hi. apply H. lia.
  - split; [lia|]. intros H. by rewrite Heq.
Qed.

Lemma reads_fmap {A B} (f : A -> B) (m : M A) :
  reads_what_it_takes m -> reads_what_it_takes (f <$> m).
Proof. intros Hm. apply reads_bind; [done|]. intros a. apply reads_ret. Qed.

Lemma reads_for_each {A B} (f : B -> A -> M B) l :
  (forall b a, reads_what_it_takes (f b a)) ->
  forall b, reads_what_it_takes (M.for_each f l b).
Proof.
  intros Hf. induction l as [|a l IH]; intros b; simpl.
  - apply reads_ret.
  - apply (reads_bind (f b a)); [apply Hf|]. intros b'. apply IH.
Qed.

Ltac reads :=
  repeat match goal with
         | |- reads_what_it_takes (mret _) => apply reads_ret
         | |- reads_what_it_takes (M.lift _) => apply reads_lift
         | |- reads_what_it_takes M.time_time => apply reads_time_time
         | |- reads_what_it_takes M.datetime_now => apply reads_time_time
         | |- reads_what_it_takes (fmap _ _) => apply reads_fmap
         | |- reads_what_it_takes (mbind _ _) => apply reads_bind; [|intros ?]
         | |- reads_what_it_takes (M.for_each _ _ _) => apply reads_for_each; intros ? ?
         | |- reads_what_it_takes (match ?x with _ => _ end) => destruct x
         end.

Lemma reads_event_channel d poaps :
  reads_what_it_takes (event_channel fromisoformat INACTIVITY_THRESHOLD_WEEKS d poaps).
Proof.
  unfold event_channel, _add_channel_metadata, _add_event_description_item,
    event_description_item, _add_claim_item, claim_item, claim_pubDate,
    _check_and_add_inactivity_alert, inactivity_alert, weeks_since_most_recent,
    inactivity_item.
  cbv zeta. reads.
Qed.

Lemma reads_address_channel address poaps :
  reads_what_it_takes (address_channel fromisoformat address poaps).
Proof.
  unfold address_channel, _add_address_channel_metadata, _add_address_poap_item,
    address_poap_item, address_poap_pubDate.
  cbv zeta. reads.
Qed.

Lemma reads_generate_event_feed poap_client event_id :
  reads_what_it_takes
    (generate_event_feed fromisoformat html_unescape INACTIVITY_THRESHOLD_WEEKS
       poap_client event_id).
Proof.
  unfold generate_event_feed. apply reads_bind; [apply reads_event_channel|].
  intros channel. apply reads_lift.
Qed.

Lemma reads_generate_address_feed poap_client address :
  reads_what_it_takes
    (generate_address_feed fromisoformat html_unescape poap_client address).
Proof.
  unfold generate_address_feed. apply reads_bind; [apply reads_lift|].
  intros poaps. apply reads_bind; [apply reads_address_channel|].
  intros channel. apply reads_lift.
Qed.

(** C9, amended. An invocation is a function of its inputs and of the
    clock readings it takes, however many they are: a clock that agrees
    on those readings gives the same feed and takes as many.  So when
    all the readings taken are one instant, the feed is the one that is
    computed with the clock standing at that instant. *)
Theorem feed_is_a_function_of_the_readings_taken poap_client event_id address (c : clock) :
  let event_feed :=
    generate_event_feed fromisoformat html_unescape INACTIVITY_THRESHOLD_WEEKS
      poap_client event_id in
  let address_feed :=
    generate_address_feed fromisoformat html_unescape poap_client address in
  (forall c' : clock,
     (forall i, (i < (event_feed c 0%nat).2)%nat -> c' i = c i) ->
     event_feed c' 0%nat = event_feed c 0%nat) /\
  (forall c' : clock,
     (forall i, (i < (address_feed c 0%nat).2)%nat -> c' i = c i) ->
     address_feed c' 0%nat = address_feed c 0%nat) /\
  (forall now,
     (forall i, (i < (event_feed c 0%nat).2)%nat -> c i = now) ->
     event_feed c 0%nat = event_feed (fun _ => now) 0%nat) /\
  (forall now,
     (forall i, (i < (address_feed c 0%nat).2)%nat -> c i = now) ->
     address_feed c 0%nat = address_feed (fun _ => now) 0%nat).
Proof.
  intros event_feed address_feed.
  assert (He : forall c' : clock,
             (forall i, (i < (event_feed c 0%nat).2)%nat -> c' i = c i) ->
             event_feed c' 0%nat = event_feed c 0%nat).
  { intros c' H.
    apply (reads_generate_event_feed poap_client event_id c c' 0%nat).
    intros i [_ Hi]. by apply H. }
  assert (Ha : forall c' : clock,
             (forall i, (i < (address_feed c 0%nat).2)%nat -> c' i = c i) ->
             address_feed c' 0%nat = address_feed c 0%nat).
  { intros c' H.
    apply (reads_generate_address_feed poap_client address c c' 0%nat).
    intros i [_ Hi]. by apply H. }
  repeat split; [done|done| |].
  - intros now H. symmetry. apply He. intros i Hi. symmetry. by apply H.
  - intros now H. symmetry. apply Ha. intros i Hi. symmetry. by apply H.
Qed.

End Clock.


(** C9, as the specification states it, fails: the clock is read again
    after the reading that dates the channel.  With the sample event whose
    start date does not parse and a clock that moves on, [lastBuildDate]
    and the [pubDate] of the description item come from two readings, and
    no single instant gives both. *)
Lemma clock_is_read_again :
  event_channel Iso.fromisoformat 4 Sample.details_UTC [] Sample.ticking 0%nat
    = (Ok Sample.channel_UTC, 2%nat) /\
  ~ exists now,
      findtext "lastBuildDate" Sample.channel_UTC = Some (formatdate now) /\
      pubDates Sample.channel_UTC = [Some (formatdate now)].
Proof.
  split; [vm_compute; reflexivity|].
  intros (now & H1 & H2).
  assert (L1 : findtext "lastBuildDate" Sample.channel_UTC
               = Some (formatdate (Sample.ticking 0%nat))) by (vm_compute; reflexivity).
  assert (L2 : pubDates Sample.channel_UTC
               = [Some (formatdate (Sample.ticking 1%nat))]) by (vm_compute; reflexivity).
  rewrite L1 in H1. rewrite L2 in H2.
  injection H1 as H1. injection H2 as H2. rewrite <- H2 in H1.
  vm_compute in H1. discriminate H1.
Qed.

(** ** The theorems at the sample data *)

Lemma claims_fetch_failure_witness :
  get_event_poaps Sample.client_without_poaps 12345 = Raise RequestException /\
  get_address_poaps Sample.client_without_poaps Sample.address = Raise RequestException /\
  generate_event_feed Iso.fromisoformat Html.unescape 4
    Sample.client_without_poaps 12345 Sample.ticking 0%nat
  = generate_event_feed Iso.fromisoformat Html.unescape 4
      (with_no_claims Sample.client_without_poaps) 12345 Sample.ticking 0%nat /\
  generate_address_feed Iso.fromisoformat Html.unescape
    Sample.client_without_poaps Sample.address Sample.ticking 0%nat
  = (Raise RequestException, 0%nat).
Proof.
  split; [reflexivity|]. split; [reflexivity|].
  pose proof (claims_fetch_failure Iso.fromisoformat Html.unescape 4
                Sample.client_without_poaps Sample.ticking) as [He Ha].
  split.
  - apply (He 12345 RequestException). reflexivity.
  - apply (Ha Sample.address RequestException). reflexivity.
Defined.

Lemma inactivity_alert_evaluates_witness :
  forallb (created_ok Iso.fromisoformat) [Sample.claim1; Sample.claim2] = true /\
  match
    InactivityEvaluator.evaluate
      (claim_instants Iso.fromisoformat [Sample.claim1; Sample.claim2]) 4 (Sample.ticking 0%nat)
  with
  | None =>
      exists n',
        _check_and_add_inactivity_alert Iso.fromisoformat 4 (new_Element "channel")
          Sample.details [Sample.claim1; Sample.claim2] Sample.ticking 0%nat
        = (Ok (new_Element "channel"), n')
  | Some notice =>
      exists item,
        _check_and_add_inactivity_alert Iso.fromisoformat 4 (new_Element "channel")
          Sample.details [Sample.claim1; Sample.claim2] Sample.ticking 0%nat
        = (Ok (append (new_Element "channel") item), 2%nat) /\
        tag item = "item" /\
        findtext "title" item = Some (InactivityEvaluator.title notice) /\
        findtext "guid" item
        = Some (inactivity_guid Sample.details (InactivityEvaluator.weeksSince notice)) /\
        findtext "link" item
        = Some (inactivity_guid Sample.details (InactivityEvaluator.weeksSince notice)) /\
        findtext "pubDate" item = Some (formatdate (Sample.ticking 1%nat))
  end.
Proof.
  split; [vm_compute; reflexivity|].
  apply (inactivity_alert_evaluates Iso.fromisoformat 4 (new_Element "channel")
           Sample.details [Sample.claim1; Sample.claim2] Sample.ticking 0%nat).
  vm_compute. reflexivity.
Defined.

Lemma inactivity_monotonic_in_now_witness :
  Sample.ticking 0%nat <= Sample.ticking_later 0%nat /\
  exists w2,
    weeks_since_most_recent Iso.fromisoformat [Sample.claim1; Sample.claim2]
      Sample.ticking_later 0%nat
    = (Ok (Some (w2, {| wall := 1751601335 * usec_per_second; tzinfo := Some 0 |})), 1%nat) /\
    13 <= w2.
Proof.
  split; [vm_compute; discriminate|].
  destruct (inactivity_monotonic_in_now Iso.fromisoformat 4 Sample.details
              [Sample.claim1; Sample.claim2] Sample.ticking Sample.ticking_later 0%nat
              13 {| wall := 1751601335 * usec_per_second; tzinfo := Some 0 |} 1%nat)
    as (w2 & Hw2 & Hle & _).
  - vm_compute. discriminate.
  - vm_compute. reflexivity.
  - exists w2. split; [exact Hw2 | exact Hle].
Defined.

Lemma event_feed_item_sequence_witness :
  event_channel Iso.fromisoformat 4 Sample.details [Sample.claim1; Sample.claim2]
    Sample.ticking 0%nat = (Ok Sample.channel, 3%nat) /\
  exists description claims alert,
    items Sample.channel = description :: claims ++ option_list alert /\
    List.length claims = 2%nat.
Proof.
  assert (H : event_channel Iso.fromisoformat 4 Sample.details [Sample.claim1; Sample.claim2]
                Sample.ticking 0%nat = (Ok Sample.channel, 3%nat))
    by (vm_compute; reflexivity).
  split; [exact H|].
  destruct (event_feed_item_sequence Iso.fromisoformat 4 Sample.details
              [Sample.claim1; Sample.claim2] Sample.ticking 0%nat Sample.channel 3%nat H)
    as (description & claims & alert & Hitems & _ & Hall & _).
  exists description, claims, alert. split; [exact Hitems|].
  apply Forall2_length in Hall. symmetry. exact Hall.
Defined.

Lemma channel_description_is_CDATA_witness :
  M.run (generate_event_feed Iso.fromisoformat Html.unescape 4 Sample.client 12345)
    Sample.ticking = Ok Sample.event_xml /\
  exists title data after,
    character_data 0
      (escape_cdata (event_channel_description
                       (fetch_event_details Sample.client 12345))) = Ok data /\
    Sample.event_xml
    = channel_head title +:+
      "<description><![CDATA[" +:+ Html.unescape data +:+ "]]></description>" +:+ after.
Proof.
  assert (H : M.run (generate_event_feed Iso.fromisoformat Html.unescape 4
                       Sample.client 12345) Sample.ticking = Ok Sample.event_xml)
    by (vm_compute; reflexivity).
  split; [exact H|].
  exact (proj1 (channel_description_is_CDATA Iso.fromisoformat Html.unescape 4
                  Sample.client Sample.ticking Sample.event_xml) 12345 H).
Defined.

Lemma feed_is_a_function_of_the_readings_taken_witness :
  (forall i,
     (i < (generate_event_feed Iso.fromisoformat Html.unescape 4 Sample.client 12345
             Sample.ticking 0%nat).2)%nat ->
     Sample.ticking_then_zero i = Sample.ticking i) /\
  generate_event_feed Iso.fromisoformat Html.unescape 4 Sample.client 12345
    Sample.ticking_then_zero 0%nat
  = generate_event_feed Iso.fromisoformat Html.unescape 4 Sample.client 12345
      Sample.ticking 0%nat.
Proof.
  assert (H : forall i,
             (i < (generate_event_feed Iso.fromisoformat Html.unescape 4 Sample.client 12345
                     Sample.ticking 0%nat).2)%nat ->
             Sample.ticking_then_zero i = Sample.ticking i).
  { intros i Hi.
    assert (E : (generate_event_feed Iso.fromisoformat Html.unescape 4 Sample.client 12345
                   Sample.ticking 0%nat).2 = 3%nat) by (vm_compute; reflexivity).
    rewrite E in Hi. unfold Sample.ticking_then_zero.
    destruct (Nat.ltb_spec i 4); [reflexivity|lia]. }
  split; [exact H|].
  exact (proj1 (feed_is_a_function_of_the_readings_taken Iso.fromisoformat Html.unescape 4
                  Sample.client 12345 Sample.address Sample.ticking)
           Sample.ticking_then_zero H).
Defined.

(** ** The cache *)

(** X1. A feed that is stored is served from the instant of storing for
    fifteen minutes and not after; the entries of other keys stay as they
    were. *)
Theorem cache_set_then_get db table cache_key rss_xml (c : clock) n :
  get_item_answers db = true ->
  put_item_answers db = true ->
  exists table',
    set_cached_data db table cache_key rss_xml c n = (Ok table', S (S n)) /\
    (forall (c' : clock) k,
       get_cached_data db table' cache_key c' k
       = (Ok (if c' k - c n <? cache_duration then Some rss_xml else None), S k)) /\
    (forall other, other <> cache_key -> table' !! other = table !! other).
Proof.
  intros Hget Hput. unfold set_cached_data. unfold_monad. rewrite Hput.
  eexists. split; [reflexivity|]. split.
  - intros c' k. unfold get_cached_data. rewrite Hget, lookup_insert_eq.
    unfold_monad. simpl. by destruct (c' k - c n <? cache_duration).
  - intros other Hother. by rewrite lookup_insert_ne.
Qed.

Lemma cache_set_then_get_witness :
  exists table',
    set_cached_data {| get_item_answers := true; put_item_answers := true |}
      ∅ "event:12345" Sample.event_xml Sample.ticking 3%nat = (Ok table', 5%nat) /\
    get_cached_data {| get_item_answers := true; put_item_answers := true |}
      table' "event:12345" Sample.ticking 60%nat = (Ok (Some Sample.event_xml), 61%nat) /\
    get_cached_data {| get_item_answers := true; put_item_answers := true |}
      table' "event:12345" Sample.ticking 1000%nat = (Ok None, 1001%nat).
Proof.
  destruct (cache_set_then_get {| get_item_answers := true; put_item_answers := true |}
              ∅ "event:12345" Sample.event_xml Sample.ticking 3%nat eq_refl eq_refl)
    as (table' & Hset & Hget & _).
  exists table'. split; [exact Hset|]. split.
  - rewrite (Hget Sample.ticking 60%nat). reflexivity.
  - rewrite (Hget Sample.ticking 1000%nat). reflexivity.
Defined.

(** X2. The keys of two requests with a valid feed kind are equal only if
    the kinds and the identifiers are. *)
Theorem get_cache_key_inj feed_type identifier feed_type' identifier' :
  feed_type = "event" \/ feed_type = "address" ->
  feed_type' = "event" \/ feed_type' = "address" ->
  get_cache_key feed_type identifier = get_cache_key feed_type' identifier' ->
  feed_type = feed_type' /\ identifier = identifier'.
Proof.
  unfold get_cache_key.
  intros [-> | ->] [-> | ->] H; try discriminate H.
  - split; [done|]. by apply (append_inj_l "event:") in H.
  - split; [done|]. by apply (append_inj_l "address:") in H.
Qed.

Lemma get_cache_key_inj_witness :
  "event" = "event" /\ "12345" = "12345".
Proof.
  exact (get_cache_key_inj "event" "12345" "event" "12345"
           (or_introl eq_refl) (or_introl eq_refl) eq_refl).
Defined.

(** ** The handler *)

Section HandlerProperties.

Variable fromisoformat : string -> option datetime.
Variable html_unescape : string -> string.
Variable INACTIVITY_THRESHOLD_WEEKS : Z.
Variable int : string -> option Z.


Lemma M_bind_lift_Ok {A B} (a : A) (k : A -> M B) : (M.lift (Ok a) ≫= k) = k a.
Proof. reflexivity. Qed.

(** a request that passes the checks goes on to the cache *)
Lemma handle_request poap_client db event table feed_type identifier :
  request_parts event = Some (feed_type, identifier) ->
  handle fromisoformat html_unescape INACTIVITY_THRESHOLD_WEEKS int poap_client db event table
  = (cached_data ← get_cached_data db table (get_cache_key feed_type identifier);
     match cached_data with
     | Some rss_xml => mret (rss_response rss_xml, table)
     | None =>
         fresh ← fresh_feed fromisoformat html_unescape INACTIVITY_THRESHOLD_WEEKS int poap_client feed_type identifier;
         match fresh with
         | inr early => mret (early, table)
         | inl rss_xml =>
             table ← set_cached_data db table (get_cache_key feed_type identifier) rss_xml;
             mret (rss_response rss_xml, table)
         end
     end).
Proof.
  unfold request_parts, handle. intros H.
  destruct (get event "path" (VStr EmptyString)) as [| |path]; try discriminate H.
  simpl. rewrite M_bind_lift_Ok.
  destruct (split "/" (strip "/" path)) as [|ft [|id rest]]; try discriminate H.
  destruct (String.eqb ft "event" || String.eqb ft "address"); [|discriminate H].
  by injection H as -> ->.
Qed.

(** a request that does not pass the checks is refused *)
Lemma handle_refused poap_client db event table c :
  request_parts event = None ->
  exists answer,
    lambda_handler fromisoformat html_unescape INACTIVITY_THRESHOLD_WEEKS int poap_client db event table c = (answer, table) /\
    (answer = invalid_path \/ answer = invalid_feed_type \/ answer = internal_server_error).
Proof.
  unfold request_parts, lambda_handler, handle. intros H.
  destruct (get event "path" (VStr EmptyString)) as [| |path];
    [by eexists; split; [reflexivity|auto]..|].
  unfold_monad. simpl.
  destruct (split "/" (strip "/" path)) as [|ft [|id rest]];
    [by eexists; split; [reflexivity|auto]..|].
  destruct (String.eqb ft "event" || String.eqb ft "address"); [discriminate H|].
  eexists. split; [reflexivity|auto].
Qed.


Lemma get_cached_data_lookup db table cache_key (c : clock) n :
  exists n',
    get_cached_data db table cache_key c n
    = (Ok (cache_lookup db table cache_key (c n)), n').
Proof.
  unfold get_cached_data, cache_lookup.
  destruct (get_item_answers db); [|by exists n].
  destruct (table !! cache_key) as [item|]; [|by exists n].
  exists (S n). unfold_monad. simpl.
  by destruct (c n - item_cached_at item <? cache_duration).
Qed.

(** the only early response of the fresh feed is the one for the event
    identifier *)
Lemma fresh_feed_early poap_client feed_type identifier c n early n' :
  fresh_feed fromisoformat html_unescape INACTIVITY_THRESHOLD_WEEKS int poap_client feed_type identifier c n = (Ok (inr early), n') ->
  early = invalid_event_id.
Proof.
  unfold fresh_feed.
  destruct (String.eqb feed_type "event").
  - destruct (int identifier) as [event_id|]; [|by intros [= <- _]].
    destruct (generate_event_feed _ _ _ _ _ c n) as [[rss_xml|e] n1]; [discriminate|].
    destruct (is_ValueError e); [by intros [= <- _]|discriminate].
  - unfold fmap, M_fmap. unfold_monad.
    destruct (generate_address_feed _ _ _ _ c n) as [[rss_xml|e] n1]; discriminate.
Qed.

(** a request that finds its feed in the cache ends there *)
Lemma handle_hit poap_client db event table (c : clock) feed_type identifier rss_xml :
  request_parts event = Some (feed_type, identifier) ->
  cache_lookup db table (get_cache_key feed_type identifier) (c 0%nat) = Some rss_xml ->
  (handle fromisoformat html_unescape INACTIVITY_THRESHOLD_WEEKS int poap_client db event table c 0%nat).1
  = Ok (rss_response rss_xml, table).
Proof.
  intros Hparts Hhit.
  rewrite (handle_request _ _ _ _ _ _ Hparts).
  destruct (get_cached_data_lookup db table (get_cache_key feed_type identifier) c 0%nat)
    as (n' & Hget).
  erewrite M_bind_step by exact Hget. by rewrite Hhit.
Qed.

(** X3. A request whose key has an entry that is younger than fifteen
    minutes is answered with the stored feed: the client is not asked and
    the table is not written. *)
Theorem handler_serves_cached_feed poap_client db event table (c : clock)
    feed_type identifier rss_xml :
  request_parts event = Some (feed_type, identifier) ->
  cache_lookup db table (get_cache_key feed_type identifier) (c 0%nat) = Some rss_xml ->
  lambda_handler fromisoformat html_unescape INACTIVITY_THRESHOLD_WEEKS int poap_client db event table c = (rss_response rss_xml, table).
Proof.
  intros Hparts Hhit. unfold lambda_handler.
  by rewrite (handle_hit _ _ _ _ _ _ _ _ Hparts Hhit).
Qed.

(** a request that misses the cache is answered by the fresh feed *)
Lemma handler_miss poap_client db event table (c : clock) feed_type identifier :
  request_parts event = Some (feed_type, identifier) ->
  cache_lookup db table (get_cache_key feed_type identifier) (c 0%nat) = None ->
  exists n1,
    (n1 = 0%nat \/ n1 = 1%nat) /\
    (table !! get_cache_key feed_type identifier = None -> n1 = 0%nat) /\
    lambda_handler fromisoformat html_unescape INACTIVITY_THRESHOLD_WEEKS int poap_client db event table c
    = match fresh_feed fromisoformat html_unescape INACTIVITY_THRESHOLD_WEEKS int poap_client feed_type identifier c n1 with
      | (Ok (inl rss_xml), n2) =>
          (rss_response rss_xml,
           if put_item_answers db
           then <[get_cache_key feed_type identifier
                  := new_cache_item rss_xml (c n2) (c (S n2))]> table
           else table)
      | (Ok (inr early), _) => (early, table)
      | (Raise _, _) => (internal_server_error, table)
      end.
Proof.
  intros Hparts Hmiss. unfold lambda_handler.
  rewrite (handle_request _ _ _ _ _ _ Hparts).
  assert (Hget : exists n1,
             (n1 = 0%nat \/ n1 = 1%nat) /\
             (table !! get_cache_key feed_type identifier = None -> n1 = 0%nat) /\
             get_cached_data db table (get_cache_key feed_type identifier) c 0%nat
             = (Ok None, n1)).
  { unfold get_cached_data, cache_lookup in *.
    destruct (get_item_answers db); [|by exists 0%nat; auto].
    destruct (table !! get_cache_key feed_type identifier) as [item|];
      [|by exists 0%nat; auto].
    unfold_monad. exists 1%nat. simpl.
    destruct (c 0%nat - item_cached_at item <? cache_duration); [discriminate|].
    split; [auto|]. split; [discriminate|done]. }
  destruct Hget as (n1 & Hn1 & Hnone & Hget).
  exists n1. split; [done|]. split; [done|].
  erewrite M_bind_step by exact Hget.
  unfold mbind at 1, M_bind, M.bind.
  destruct (fresh_feed _ _ _ _ _ _ _ c n1) as [[[rss_xml|early]|e] n2]; [|done|done].
  unfold set_cached_data, new_cache_item. unfold_monad.
  by destruct (put_item_answers db).
Qed.

(** X4. The handler answers with a feed and status 200, or with one of
    four fixed error responses.  An error response leaves the table as it
    was; a feed is written, if at all, under the key of the request. *)
Theorem lambda_handler_answers poap_client db event table (c : clock) :
  let answer := lambda_handler fromisoformat html_unescape INACTIVITY_THRESHOLD_WEEKS int poap_client db event table c in
  ((answer.1 = invalid_path \/ answer.1 = invalid_feed_type \/
    answer.1 = invalid_event_id \/ answer.1 = internal_server_error) /\
   answer.2 = table) \/
  (exists feed_type identifier rss_xml,
     request_parts event = Some (feed_type, identifier) /\
     answer.1 = rss_response rss_xml /\
     (answer.2 = table \/
      exists item,
        answer.2 = <[get_cache_key feed_type identifier := item]> table /\
        item_data item = rss_xml)).
Proof.
  cbv zeta.
  destruct (request_parts event) as [[feed_type identifier]|] eqn:Hparts.
  - destruct (cache_lookup db table (get_cache_key feed_type identifier) (c 0%nat))
      as [rss_xml|] eqn:Hlookup.
    + unfold lambda_handler.
      rewrite (handle_hit poap_client _ _ _ _ _ _ _ Hparts Hlookup).
      right. exists feed_type, identifier, rss_xml. auto.
    + destruct (handler_miss poap_client _ _ _ _ _ _ Hparts Hlookup) as (n1 & _ & _ & ->).
      destruct (fresh_feed _ _ _ _ _ _ _ c n1) as [[[rss_xml|early]|e] n2] eqn:Hfresh.
      * right. exists feed_type, identifier, rss_xml.
        split; [done|]. split; [done|]. simpl.
        destruct (put_item_answers db); [right|by left].
        by eexists.
      * apply fresh_feed_early in Hfresh as ->. left. auto.
      * left. auto.
  - destruct (handle_refused poap_client db event table c Hparts)
      as (answer & -> & [-> | [-> | ->]]); left; auto.
Qed.


(** X6. For an event feed, a [ValueError] that is raised while the feed is
    generated is answered like an identifier that is not a number, with
    status 400; the table is not written. *)
Theorem event_feed_ValueError_is_answered_400 poap_client db event table (c : clock)
    identifier event_id :
  request_parts event = Some ("event", identifier) ->
  int identifier = Some event_id ->
  table !! get_cache_key "event" identifier = None ->
  M.run (generate_event_feed fromisoformat html_unescape INACTIVITY_THRESHOLD_WEEKS
           poap_client event_id) c = Raise ValueError ->
  lambda_handler fromisoformat html_unescape INACTIVITY_THRESHOLD_WEEKS int poap_client db event table c = (invalid_event_id, table).
Proof.
  intros Hparts Hint Hnone Hraise.
  assert (Hlookup : cache_lookup db table (get_cache_key "event" identifier) (c 0%nat) = None).
  { unfold cache_lookup. rewrite Hnone. by destruct (get_item_answers db). }
  destruct (handler_miss poap_client _ _ _ _ _ _ Hparts Hlookup) as (n1 & _ & Hn1 & ->).
  rewrite (Hn1 Hnone).
  unfold fresh_feed. simpl. rewrite Hint.
  unfold M.run in Hraise.
  destruct (generate_event_feed _ _ _ _ _ c 0%nat) as [[rss_xml|e] n2]; simpl in Hraise;
    [discriminate|].
  by injection Hraise as ->.
Qed.

End HandlerProperties.

Lemma handler_serves_cached_feed_witness :
  request_parts Request.event_request = Some ("event", "12345") /\
  cache_lookup answering Request.stored (get_cache_key "event" "12345")
    (Sample.ticking 0%nat) = Some Sample.event_xml_without_poaps /\
  lambda_handler Iso.fromisoformat Html.unescape 4 PyInt.int Sample.client_without_details
    answering Request.event_request Request.stored Sample.ticking
  = (rss_response Sample.event_xml_without_poaps, Request.stored).
Proof.
  assert (H1 : request_parts Request.event_request = Some ("event", "12345"))
    by (vm_compute; reflexivity).
  assert (H2 : cache_lookup answering Request.stored (get_cache_key "event" "12345")
                 (Sample.ticking 0%nat) = Some Sample.event_xml_without_poaps)
    by (vm_compute; reflexivity).
  split; [exact H1|]. split; [exact H2|].
  exact (handler_serves_cached_feed Iso.fromisoformat Html.unescape 4 PyInt.int
           Sample.client_without_details answering Request.event_request Request.stored
           Sample.ticking "event" "12345" Sample.event_xml_without_poaps H1 H2).
Defined.


Lemma event_feed_ValueError_is_answered_400_witness :
  M.run (generate_event_feed Iso.fromisoformat Html.unescape 4 Request.client_end_mark 12345)
    Sample.ticking = Raise ValueError /\
  lambda_handler Iso.fromisoformat Html.unescape 4 PyInt.int Request.client_end_mark
    answering Request.event_request ∅ Sample.ticking
  = (invalid_event_id, ∅).
Proof.
  assert (H : M.run (generate_event_feed Iso.fromisoformat Html.unescape 4
                       Request.client_end_mark 12345) Sample.ticking = Raise ValueError)
    by (vm_compute; reflexivity).
  split; [exact H|].
  apply (event_feed_ValueError_is_answered_400 Iso.fromisoformat Html.unescape 4 PyInt.int
           Request.client_end_mark answering Request.event_request ∅ Sample.ticking
           "12345" 12345).
  - vm_compute. reflexivity.
  - vm_compute. reflexivity.
  - vm_compute. reflexivity.
  - exact H.
Defined.

(** ** The path of a request *)

Lemma rstrip_snoc c s : rstrip c (s +:+ String c EmptyString) = rstrip c s.
Proof.
  induction s as [|a s IH].
  - rewrite append_nil_l. simpl. by rewrite Ascii.eqb_refl.
  - rewrite append_String. simpl. by rewrite IH.
Qed.

Lemma strip_snoc c s : strip c (s +:+ String c EmptyString) = strip c s.
Proof.
  unfold strip. induction s as [|a s IH].
  - rewrite append_nil_l. simpl. by rewrite Ascii.eqb_refl.
  - rewrite append_String. simpl.
    destruct (Ascii.eqb a c); [exact IH|].
    rewrite <- append_String. apply rstrip_snoc.
Qed.

Lemma strip_cons c s : strip c (String c s) = strip c s.
Proof. unfold strip. simpl. by rewrite Ascii.eqb_refl. Qed.

Lemma contains_char_cons c a s :
  contains (String c EmptyString) (String a s) = false ->
  Ascii.eqb a c = false /\ contains (String c EmptyString) s = false.
Proof.
  simpl. intros H. apply orb_false_elim in H as [Ha Hs]. split; [|done].
  destruct (Ascii.eqb_spec a c) as [->|_]; [|done].
  destruct (ascii_dec c c); [|done]. by destruct s.
Qed.

Lemma lstrip_free c s :
  contains (String c EmptyString) s = false -> lstrip c s = s.
Proof.
  destruct s as [|a s]; [done|]. intros H.
  apply contains_char_cons in H as [Ha _]. simpl. by rewrite Ha.
Qed.

Lemma rstrip_free c s :
  contains (String c EmptyString) s = false -> rstrip c s = s.
Proof.
  induction s as [|a s IH]; [done|]. intros H.
  apply contains_char_cons in H as [Ha Hs]. simpl.
  rewrite (IH Hs), Ha. by destruct s.
Qed.

Lemma rstrip_app c x y :
  y <> EmptyString -> contains (String c EmptyString) y = false ->
  rstrip c (x +:+ y) = x +:+ y.
Proof.
  intros Hy Hfree. induction x as [|a x IH].
  - rewrite append_nil_l. by apply rstrip_free.
  - rewrite append_String. simpl. rewrite IH.
    destruct (x +:+ y) eqn:E; [|done].
    destruct x; [|discriminate E]. by rewrite append_nil_l in E.
Qed.

Lemma split_free c s :
  contains (String c EmptyString) s = false -> split c s = [s].
Proof.
  induction s as [|a s IH]; [done|]. intros H.
  apply contains_char_cons in H as [Ha Hs]. simpl.
  by rewrite Ha, (IH Hs).
Qed.

Lemma split_app c x y :
  contains (String c EmptyString) x = false ->
  split c (x +:+ String c y) = x :: split c y.
Proof.
  induction x as [|a x IH]; intros H.
  - rewrite append_nil_l. simpl. by rewrite Ascii.eqb_refl.
  - apply contains_char_cons in H as [Ha Hx].
    rewrite append_String. simpl. by rewrite Ha, (IH Hx).
Qed.

(** X7. A path [/event/<identifier>] or [/address/<identifier>], with an
    identifier that is not empty and holds no slash, passes the checks of
    the handler, with the identifier as it stands in the path. *)
Theorem path_of_a_feed_is_accepted (event : gmap string value) feed_type identifier :
  feed_type = "event" \/ feed_type = "address" ->
  identifier <> EmptyString ->
  contains "/" identifier = false ->
  event !! "path" = Some (VStr ("/" +:+ feed_type +:+ "/" +:+ identifier)) ->
  request_parts event = Some (feed_type, identifier).
Proof.
  intros Hfeed Hid Hfree Hpath. unfold request_parts, get. rewrite Hpath.
  change ("/" +:+ feed_type +:+ "/" +:+ identifier)
    with (String "/" (feed_type +:+ "/" +:+ identifier)).
  rewrite strip_cons. unfold strip.
  assert (Hft : contains "/" feed_type = false) by (by destruct Hfeed as [-> | ->]).
  assert (Hl : lstrip "/" (feed_type +:+ "/" +:+ identifier)
               = feed_type +:+ "/" +:+ identifier)
    by (by destruct Hfeed as [-> | ->]).
  rewrite Hl, <- append_assoc, rstrip_app, append_assoc by done.
  change ("/" +:+ identifier) with (String "/" identifier).
  rewrite split_app, split_free by done.
  by destruct Hfeed as [-> | ->].
Qed.

Section Slashes.

Variable fromisoformat : string -> option datetime.
Variable html_unescape : string -> string.
Variable INACTIVITY_THRESHOLD_WEEKS : Z.
Variable int : string -> option Z.

(** X8. A slash before the path of a request and a slash after it make no
    difference to the answer. *)
Theorem slashes_around_the_path_are_ignored poap_client db
    (event event' : gmap string value) table (c : clock) path :
  event !! "path" = Some (VStr path) ->
  event' !! "path" = Some (VStr ("/" +:+ path +:+ "/")) ->
  lambda_handler fromisoformat html_unescape INACTIVITY_THRESHOLD_WEEKS int
    poap_client db event' table c
  = lambda_handler fromisoformat html_unescape INACTIVITY_THRESHOLD_WEEKS int
      poap_client db event table c.
Proof.
  intros Hpath Hpath'. unfold lambda_handler, handle, get.
  rewrite Hpath, Hpath'. simpl as_str. rewrite !M_bind_lift_Ok.
  change ("/" +:+ path +:+ "/") with (String "/" (path +:+ "/")).
  by rewrite strip_cons, strip_snoc.
Qed.

End Slashes.

Lemma path_of_a_feed_is_accepted_witness :
  request_parts {[ "path" := VStr "/address/vitalik.eth" ]} = Some ("address", "vitalik.eth").
Proof.
  apply (path_of_a_feed_is_accepted {[ "path" := VStr "/address/vitalik.eth" ]}
           "address" "vitalik.eth").
  - by right.
  - discriminate.
  - reflexivity.
  - reflexivity.
Defined.

Lemma slashes_around_the_path_are_ignored_witness :
  lambda_handler Iso.fromisoformat Html.unescape 4 PyInt.int Sample.client answering
    {[ "path" := VStr "/event/12345/" ]} ∅ Sample.ticking
  = lambda_handler Iso.fromisoformat Html.unescape 4 PyInt.int Sample.client answering
      {[ "path" := VStr "event/12345" ]} ∅ Sample.ticking.
Proof.
  apply (slashes_around_the_path_are_ignored Iso.fromisoformat Html.unescape 4 PyInt.int
           Sample.client answering {[ "path" := VStr "event/12345" ]}
           {[ "path" := VStr "/event/12345/" ]} ∅ Sample.ticking "event/12345").
  - reflexivity.
  - reflexivity.
Defined.

(** ** The items of the feeds *)

Section Items.

Variable fromisoformat : string -> option datetime.
Variable INACTIVITY_THRESHOLD_WEEKS : Z.

Lemma address_poap_item_tag p address c n it n' :
  address_poap_item fromisoformat p address c n = (Ok it, n') -> tag it = "item".
Proof.
  unfold address_poap_item. intros H.
  apply M_bind_Ok in H as (pubDate & n1 & _ & H).
  unfold_monad. injection H as <- _. by destruct pubDate.
Qed.

(** the items of the channel of an address feed *)
Lemma address_channel_items address poaps c n ch n' :
  address_channel fromisoformat address poaps c n = (Ok ch, n') ->
  Forall2 (fun p it => exists k k', address_poap_item fromisoformat p address c k = (Ok it, k'))
          (take MAX_CLAIMS_COUNT poaps) (items ch).
Proof.
  unfold address_channel. intros H.
  apply M_bind_Ok in H as (ch1 & n1 & Hmeta & H).
  apply (for_each_extends (fun p => address_poap_item fromisoformat p address)) in H
    as (its & Hext & Hall).
  unfold _add_address_channel_metadata in Hmeta. unfold_monad.
  injection Hmeta as <- _.
  assert (Hitems : items ch = its).
  { unfold extends in Hext. rewrite Hext. unfold items. simpl.
    apply filter_items_all.
    clear Hext. induction Hall as [|p it ps its (k & k' & Hit) _ IH]; constructor; [|done].
    by eapply address_poap_item_tag. }
  by rewrite Hitems.
Qed.

(** X9. The items of an address feed are one item for each of the first
    twenty records, in the order of the records, and nothing else: never
    more than twenty, and no inactivity item. *)
Theorem address_feed_item_sequence address poaps c n ch n' :
  address_channel fromisoformat address poaps c n = (Ok ch, n') ->
  Forall2 (fun p it => exists k k', address_poap_item fromisoformat p address c k = (Ok it, k'))
          (take MAX_CLAIMS_COUNT poaps) (items ch) /\
  List.length (items ch) = Nat.min MAX_CLAIMS_COUNT (List.length poaps).
Proof.
  intros H. apply address_channel_items in H. split; [done|].
  apply Forall2_length in H. rewrite <- H. by rewrite length_take.
Qed.

Lemma event_description_item_guid d c n it n' :
  event_description_item fromisoformat d c n = (Ok it, n') ->
  findtext "guid" it = findtext "link" it /\ is_Some (findtext "guid" it).
Proof.
  unfold event_description_item. intros H.
  apply M_bind_Ok in H as (found & n1 & _ & H).
  apply M_bind_Ok in H as (t & n2 & _ & H).
  unfold_monad. injection H as <- _. by split; [|eexists].
Qed.

Lemma claim_item_guid p d c n it n' :
  claim_item fromisoformat p d c n = (Ok it, n') ->
  findtext "guid" it = findtext "link" it /\ is_Some (findtext "guid" it).
Proof.
  unfold claim_item. intros H.
  apply M_bind_Ok in H as (name & n1 & _ & H).
  apply M_bind_Ok in H as (description & n2 & _ & H).
  apply M_bind_Ok in H as (pubDate & n3 & _ & H).
  unfold_monad. injection H as <- _. by split; [|eexists].
Qed.

Lemma address_poap_item_guid p address c n it n' :
  address_poap_item fromisoformat p address c n = (Ok it, n') ->
  findtext "guid" it = findtext "link" it /\ is_Some (findtext "guid" it).
Proof.
  unfold address_poap_item. intros H.
  apply M_bind_Ok in H as (pubDate & n1 & _ & H).
  unfold_monad. injection H as <- _. by destruct pubDate; split; [|eexists| |eexists].
Qed.

Lemma inactivity_alert_guid d poaps c n it n' :
  inactivity_alert fromisoformat INACTIVITY_THRESHOLD_WEEKS d poaps c n = (Ok (Some it), n') ->
  findtext "guid" it = findtext "link" it /\ is_Some (findtext "guid" it).
Proof.
  unfold inactivity_alert. intros H.
  apply M_bind_Ok in H as ([[w m]|] & n1 & _ & H); [|by unfold_monad].
  destruct (INACTIVITY_THRESHOLD_WEEKS <=? w); [|by unfold_monad].
  unfold inactivity_item in H. unfold_monad.
  injection H as <- _. by split; [|eexists].
Qed.

(** X10. Every item of every feed, of an event or of an address, has a
    guid and a link, and they are the same text. *)
Theorem guid_is_link d address poaps c n ch n' :
  event_channel fromisoformat INACTIVITY_THRESHOLD_WEEKS d poaps c n = (Ok ch, n') \/
  address_channel fromisoformat address poaps c n = (Ok ch, n') ->
  Forall (fun it => findtext "guid" it = findtext "link" it /\ is_Some (findtext "guid" it))
         (items ch).
Proof.
  intros [H|H].
  - apply event_channel_items in H
      as (description & claims & alert & -> & (k & k' & Hdesc) & Hall & ka & Halert).
    constructor; [by eapply event_description_item_guid|].
    apply Forall_app. split.
    + clear Halert. induction Hall as [|p it ps its (kp & kp' & Hit) _ IH];
        constructor; [|done].
      by eapply claim_item_guid.
    + destruct alert as [it|]; constructor; [|done].
      by eapply inactivity_alert_guid.
  - apply address_channel_items in H.
    induction H as [|p it ps its (k & k' & Hit) _ IH]; constructor; [|done].
    by eapply address_poap_item_guid.
Qed.

End Items.

Lemma address_feed_item_sequence_witness :
  exists ch,
    address_channel Iso.fromisoformat Sample.address (repeat Sample.token 25)
      Sample.ticking 0%nat = (Ok ch, 1%nat) /\
    List.length (items ch) = 20%nat.
Proof.
  eexists. split; [vm_compute; reflexivity|].
  match goal with
  | |- List.length (items ?ch) = _ =>
      destruct (address_feed_item_sequence Iso.fromisoformat Sample.address
                  (repeat Sample.token 25) Sample.ticking 0%nat ch 1%nat) as [_ Hlen];
      [vm_compute; reflexivity | exact Hlen]
  end.
Defined.

Lemma guid_is_link_witness :
  event_channel Iso.fromisoformat 4 Sample.details [Sample.claim1; Sample.claim2]
    Sample.ticking 0%nat = (Ok Sample.channel, 3%nat) /\
  Forall (fun it => findtext "guid" it = findtext "link" it /\ is_Some (findtext "guid" it))
         (items Sample.channel).
Proof.
  assert (H : event_channel Iso.fromisoformat 4 Sample.details [Sample.claim1; Sample.claim2]
                Sample.ticking 0%nat = (Ok Sample.channel, 3%nat))
    by (vm_compute; reflexivity).
  split; [exact H|].
  exact (guid_is_link Iso.fromisoformat 4 Sample.details Sample.address
           [Sample.claim1; Sample.claim2] Sample.ticking 0%nat Sample.channel 3%nat
           (or_introl H)).
Defined.

(** ** Dates *)

Section Dates.

Variable fromisoformat : string -> option datetime.
Variable INACTIVITY_THRESHOLD_WEEKS : Z.




(** X12. A date member of an event that is set and is not a string, a
    number for one, is not passed over: no feed is built, and
    [AttributeError] leaves the generator. *)
Theorem event_date_that_is_no_string d poaps (c : clock) n number :
  get_or_None d "start_date" = VInt number ->
  number <> 0 ->
  event_channel fromisoformat INACTIVITY_THRESHOLD_WEEKS d poaps c n
  = (Raise AttributeError, S n).
Proof.
  intros Hdate Hnumber. unfold event_channel.
  destruct (add_channel_metadata_extends (new_Element "channel") d "event" c n)
    as (ch1 & Hmeta & _).
  erewrite M_bind_step by exact Hmeta.
  apply M_bind_raise. unfold _add_event_description_item. apply M_bind_raise.
  unfold event_description_item. apply M_bind_raise.
  unfold M.lift. simpl. rewrite Hdate. simpl.
  by destruct (Z.eqb_spec number 0).
Qed.

(** X13. A timestamp that has no [Z] at its end, no [+] and no [UTC] at
    its end is read with its clock face taken as UTC: an offset that
    [fromisoformat] reads, as after a minus sign, is dropped and not
    applied.  This holds for the dates of an event and of a claim. *)
Theorem offset_without_plus_is_dropped s dt :
  endswith "Z" s = false ->
  contains "+" s = false ->
  endswith "UTC" s = false ->
  fromisoformat s = Some dt ->
  event_datetime fromisoformat (VStr s) = Ok {| wall := wall dt; tzinfo := Some 0 |} /\
  created_datetime fromisoformat (VStr s) = Ok {| wall := wall dt; tzinfo := Some 0 |} /\
  claim_date fromisoformat (VStr s) = Ok {| wall := wall dt; tzinfo := Some 0 |}.
Proof.
  intros HZ Hplus HUTC Hparse.
  unfold event_datetime, created_datetime, claim_date, datetime_fromisoformat.
  unfold_monad. simpl. by rewrite HZ, Hplus, HUTC, Hparse.
Qed.

End Dates.


Lemma event_date_that_is_no_string_witness :
  event_channel Iso.fromisoformat 4 (<[ "start_date" := VInt 1751514935 ]> Sample.details)
    [] Sample.ticking 0%nat
  = (Raise AttributeError, 1%nat).
Proof.
  apply (event_date_that_is_no_string Iso.fromisoformat 4
           (<[ "start_date" := VInt 1751514935 ]> Sample.details) [] Sample.ticking 0%nat
           1751514935).
  - vm_compute. reflexivity.
  - discriminate.
Defined.

Lemma offset_without_plus_is_dropped_witness :
  Iso.fromisoformat "2025-07-03T03:55:35-05:00"
  = Some {| wall := 1751514935 * usec_per_second; tzinfo := Some (-5 * 3600 * usec_per_second) |} /\
  created_datetime Iso.fromisoformat (VStr "2025-07-03T03:55:35-05:00")
  = Ok {| wall := 1751514935 * usec_per_second; tzinfo := Some 0 |}.
Proof.
  assert (H : Iso.fromisoformat "2025-07-03T03:55:35-05:00"
              = Some {| wall := 1751514935 * usec_per_second;
                        tzinfo := Some (-5 * 3600 * usec_per_second) |})
    by (vm_compute; reflexivity).
  split; [exact H|].
  exact (proj1 (proj2 (offset_without_plus_is_dropped Iso.fromisoformat
                         "2025-07-03T03:55:35-05:00" _ eq_refl eq_refl eq_refl H))).
Defined.

(** ** Feeds that are built, and a feed that is not *)

Section Success.

Variable fromisoformat : string -> option datetime.
Variable INACTIVITY_THRESHOLD_WEEKS : Z.








(** X15. The inactivity check raises [TypeError] when the only claim has
    a timestamp whose parse is a naive datetime, as a date followed by
    [Z] is: the difference to the aware instant of now is not defined, and
    the exception is not caught. *)
Theorem inactivity_check_of_a_naive_date ch d p s dt (c : clock) n :
  get_or_None (members p) "created" = VStr s ->
  s <> EmptyString ->
  claim_date fromisoformat (VStr s) = Ok dt ->
  tzinfo dt = None ->
  _check_and_add_inactivity_alert fromisoformat INACTIVITY_THRESHOLD_WEEKS ch d [p] c n
  = (Raise TypeError, S n).
Proof.
  intros Hcreated Hs Hdate Hnaive.
  unfold _check_and_add_inactivity_alert, inactivity_alert, weeks_since_most_recent.
  apply M_bind_raise. apply M_bind_raise.
  assert (Hrecent : most_recent_from fromisoformat None [p] = Ok (Some dt)).
  { simpl. rewrite Hcreated. simpl.
    destruct (String.eqb_spec s EmptyString) as [|_]; [done|]. simpl.
    rewrite Hdate. by unfold_monad. }
  rewrite Hrecent, M_bind_lift_Ok.
  erewrite M_bind_step by reflexivity.
  apply M_bind_raise. unfold weeks_since_last_claim, datetime_sub. by rewrite Hnaive.
Qed.

End Success.


Lemma inactivity_check_of_a_naive_date_witness :
  claim_date Iso.fromisoformat (VStr "2025-07-03Z")
  = Ok {| wall := 20272 * usec_per_day; tzinfo := None |} /\
  _check_and_add_inactivity_alert Iso.fromisoformat 4 (new_Element "channel")
    Sample.details [Request.claim_date_only] Sample.ticking 0%nat
  = (Raise TypeError, 1%nat).
Proof.
  assert (H : claim_date Iso.fromisoformat (VStr "2025-07-03Z")
              = Ok {| wall := 20272 * usec_per_day; tzinfo := None |})
    by (vm_compute; reflexivity).
  split; [exact H|].
  apply (inactivity_check_of_a_naive_date Iso.fromisoformat 4 (new_Element "channel")
           Sample.details Request.claim_date_only "2025-07-03Z"
           {| wall := 20272 * usec_per_day; tzinfo := None |} Sample.ticking 0%nat).
  - vm_compute. reflexivity.
  - discriminate.
  - exact H.
  - reflexivity.
Defined.

(** ** Escaping *)

Lemma replace_char_cons a new c s :
  replace (String a EmptyString) new (String c s)
  = (if Ascii.eqb a c then new else String c EmptyString)
    +:+ replace (String a EmptyString) new s.
Proof.
  unfold replace. simpl.
  destruct (ascii_dec a c) as [->|Hne].
  - rewrite Ascii.eqb_refl. by destruct s.
  - by destruct (Ascii.eqb_spec a c).
Qed.

Lemma replace_char_app a new x y :
  replace (String a EmptyString) new (x +:+ y)
  = replace (String a EmptyString) new x +:+ replace (String a EmptyString) new y.
Proof.
  induction x as [|c x IH]; [done|].
  rewrite append_String, !replace_char_cons, IH. by rewrite append_assoc.
Qed.

Lemma replace_char_one a new c :
  replace (String a EmptyString) new (String c EmptyString)
  = if Ascii.eqb a c then new else String c EmptyString.
Proof. rewrite replace_char_cons. apply append_nil_r. Qed.

Lemma escape_cdata_cons c s : escape_cdata (String c s) = escape_char c +:+ escape_cdata s.
Proof.
  unfold escape_cdata, escape_char.
  rewrite replace_char_cons, !replace_char_app. f_equal.
  destruct (Ascii.eqb_spec "&" c) as [<-|H1]; [reflexivity|].
  rewrite replace_char_one.
  destruct (Ascii.eqb_spec "<" c) as [<-|H2]; [reflexivity|].
  rewrite replace_char_one.
  destruct (Ascii.eqb_spec ">" c) as [<-|H3]; [reflexivity|].
  destruct (Ascii.eqb_spec c "&") as [->|_]; [done|].
  destruct (Ascii.eqb_spec c "<") as [->|_]; [done|].
  destruct (Ascii.eqb_spec c ">") as [->|_]; [done|].
  reflexivity.
Qed.

Lemma prefix_empty s : String.prefix EmptyString s = true.
Proof. by destruct s. Qed.

Lemma character_data_char c s :
  xml_char c = true ->
  c <> ascii_of_nat 13 -> c <> "&"%char -> c <> "<"%char ->
  character_data 0 (String c s) = String c <$> character_data 0 s.
Proof.
  intros Hc Hcr Hamp Hlt. cbn [character_data String.prefix].
  destruct (ascii_dec "&" c) as [E|_]; [by subst|].
  destruct (ascii_dec "<" c) as [E|_]; [by subst|].
  cbn [orb].
  change (cr +:+ nl) with (String (ascii_of_nat 13) nl).
  unfold cr. cbn [String.prefix].
  destruct (ascii_dec (ascii_of_nat 13) c) as [E|_]; [by subst|].
  by rewrite Hc.
Qed.

Lemma character_data_escape_cdata s :
  xml_chars s = true ->
  contains cr s = false ->
  character_data 0 (escape_cdata s) = Ok s.
Proof.
  induction s as [|c s IH]; intros Hchars Hcr; [done|].
  cbn [xml_chars contains] in Hchars, Hcr.
  apply andb_prop in Hchars as [Hc Hchars].
  apply orb_false_elim in Hcr as [Hccr Hcr].
  specialize (IH Hchars Hcr).
  rewrite escape_cdata_cons. unfold escape_char.
  destruct (Ascii.eqb_spec c "&") as [->|H1].
  { change ("&amp;" +:+ escape_cdata s)
      with (String "&" (String "a" (String "m" (String "p" (String ";" (escape_cdata s)))))).
    cbn. by rewrite prefix_empty, IH. }
  destruct (Ascii.eqb_spec c "<") as [->|H2].
  { change ("&lt;" +:+ escape_cdata s)
      with (String "&" (String "l" (String "t" (String ";" (escape_cdata s))))).
    cbn. by rewrite prefix_empty, IH. }
  destruct (Ascii.eqb_spec c ">") as [->|H3].
  { change ("&gt;" +:+ escape_cdata s)
      with (String "&" (String "g" (String "t" (String ";" (escape_cdata s))))).
    cbn. by rewrite prefix_empty, IH. }
  change (String c "" +:+ escape_cdata s) with (String c (escape_cdata s)).
  rewrite character_data_char, IH; [done|done| |done|done].
  intros ->. unfold cr in Hccr. cbn in Hccr. rewrite prefix_empty in Hccr. discriminate Hccr.
Qed.

(** X16. A text of an element comes back from [tostring] and the parser
    as it was, in one text node, when it is not empty, holds characters of
    XML only and no carriage return: [&], [<] and [>] are escaped by the
    one and decoded by the other. *)
Theorem text_survives_tostring_and_parseString tag s :
  s <> EmptyString ->
  xml_chars s = true ->
  contains cr s = false ->
  parseString_tostring (Elem tag [] (Some s) [])
  = Ok (ElementNode tag [] [TextNode s]).
Proof.
  intros Hs Hchars Hcr. cbn [parseString_tostring res_mapM].
  destruct (String.eqb_spec s EmptyString) as [->|_]; [done|].
  by rewrite character_data_escape_cdata.
Qed.

Lemma text_survives_tostring_and_parseString_witness :
  parseString_tostring (Elem "title" [] (Some "POAP: R&D <Berlin> 2025") [])
  = Ok (ElementNode "title" [] [TextNode "POAP: R&D <Berlin> 2025"]).
Proof.
  apply (text_survives_tostring_and_parseString "title" "POAP: R&D <Berlin> 2025").
  - discriminate.
  - reflexivity.
  - reflexivity.
Defined.

(** ** The access token *)

(** X17. A token that a call returns, and that is not empty, is stored
    with an expiry; any later call whose reading of the clock is before
    that expiry returns the same token, makes no request to the token
    endpoint and leaves the client as it is. *)
Theorem access_token_is_reused post self posts (c : clock) taken
    token self' posts' taken' :
  _get_access_token post self posts c taken
  = {| token_result_of := Returns token; token_state_of := self';
       posts_of := posts'; readings_of := taken' |} ->
  truthy token = true ->
  exists expires,
    token_expires_at self' = Some expires /\
    forall post2 posts2 (c2 : clock) taken2,
      c2 taken2 < expires ->
      _get_access_token post2 self' posts2 c2 taken2
      = {| token_result_of := Returns token; token_state_of := self';
           posts_of := posts2; readings_of := S taken2 |}.
Proof.
  intros Hcall Htoken.
  assert (Hstored : access_token self' = token /\
                    exists expires, token_expires_at self' = Some expires).
  { unfold _get_access_token in Hcall.
    assert (Hrefresh : forall n,
               refresh_access_token post self posts c n
               = {| token_result_of := Returns token; token_state_of := self';
                    posts_of := posts'; readings_of := taken' |} ->
               access_token self' = token /\
               exists expires, token_expires_at self' = Some expires).
    { intros n. unfold refresh_access_token.
      destruct (post posts) as [token_data|e]; [|discriminate].
      destruct (token_data !! "access_token") as [token0|]; [|discriminate].
      destruct (get token_data "expires_in" (VInt 3600)) as [|expires_in|];
        [discriminate| |discriminate].
      destruct (timedelta_seconds (expires_in - 300)) as [delta|]; [|discriminate].
      destruct (datetime_in_range (c n + delta)); [|discriminate].
      intros [= <- <- _ _]. simpl. eauto. }
    destruct (truthy (access_token self)); [|by eapply Hrefresh].
    destruct (token_expires_at self) as [expires|] eqn:Hexpires; [|by eapply Hrefresh].
    destruct (c taken <? expires); [|by eapply Hrefresh].
    injection Hcall as <- <- _ _. eauto. }
  destruct Hstored as (Haccess & expires & Hexpires).
  exists expires. split; [done|].
  intros post2 posts2 c2 taken2 Hbefore.
  unfold _get_access_token. rewrite Haccess, Htoken, Hexpires.
  by destruct (Z.ltb_spec (c2 taken2) expires); [|lia].
Qed.

(** X18. A new client that is given a token which expires in at most 300
    seconds asks the token endpoint again at the next call, as long as
    the clock does not go back: the five minutes that are taken off the
    lifetime leave nothing. *)
Theorem short_lived_token_is_asked_again post posts (c : clock) taken
    token_data expires_in :
  post posts = Ok token_data ->
  get token_data "expires_in" (VInt 3600) = VInt expires_in ->
  expires_in <= 300 ->
  c taken <= c (S taken) ->
  let first := _get_access_token post new_token_state posts c taken in
  posts_of (_get_access_token post (token_state_of first) (posts_of first) c
              (readings_of first))
  = S (S posts).
Proof.
  intros Hpost Hexpires Hshort Hclock. cbv zeta.
  assert (Hagain : forall self n,
             posts_of (refresh_access_token post self (S posts) c n) = S (S posts)).
  { intros self n. unfold refresh_access_token.
    destruct (post (S posts)) as [data|e]; [|done].
    destruct (data !! "access_token") as [token|]; [|done].
    destruct (get data "expires_in" (VInt 3600)) as [|n'|]; [done| |done].
    destruct (timedelta_seconds (n' - 300)) as [delta|]; [|done].
    by destruct (datetime_in_range (c n + delta)). }
  assert (Hfirst : _get_access_token post new_token_state posts c taken
                   = refresh_access_token post new_token_state posts c taken)
    by reflexivity.
  rewrite Hfirst. clear Hfirst.
  unfold refresh_access_token at 1 2 3. rewrite Hpost.
  destruct (token_data !! "access_token") as [token|]; [|apply Hagain].
  rewrite Hexpires. unfold timedelta_seconds.
  destruct (Z.abs ((expires_in - 300) / 86400) <=? 999999999);
    [|simpl; unfold _get_access_token; simpl; by destruct (truthy token)].
  destruct (datetime_in_range (c taken + (expires_in - 300) * usec_per_second));
    [|simpl; unfold _get_access_token; simpl; by destruct (truthy token)].
  simpl. unfold _get_access_token. simpl.
  destruct (truthy token); [|apply Hagain].
  destruct (Z.ltb_spec (c (S taken)) (c taken + (expires_in - 300) * usec_per_second));
    [|apply Hagain].
  unfold usec_per_second in *. lia.
Qed.

Lemma access_token_is_reused_witness :
  exists expires,
    Some ((1760000000 + 3300) * usec_per_second) = Some expires /\
    forall post2 posts2 (c2 : clock) taken2,
      c2 taken2 < expires ->
      _get_access_token post2
        {| access_token := VStr "eyJhbGciOi";
           token_expires_at := Some ((1760000000 + 3300) * usec_per_second) |}
        posts2 c2 taken2
      = {| token_result_of := Returns (VStr "eyJhbGciOi");
           token_state_of :=
             {| access_token := VStr "eyJhbGciOi";
                token_expires_at := Some ((1760000000 + 3300) * usec_per_second) |};
           posts_of := posts2; readings_of := S taken2 |}.
Proof.
  apply (access_token_is_reused Request.token_endpoint new_token_state 0%nat
           Sample.ticking 0%nat (VStr "eyJhbGciOi")
           {| access_token := VStr "eyJhbGciOi";
              token_expires_at := Some ((1760000000 + 3300) * usec_per_second) |}
           1%nat 1%nat).
  - vm_compute. reflexivity.
  - reflexivity.
Defined.

Lemma short_lived_token_is_asked_again_witness :
  posts_of
    (_get_access_token Request.short_token_endpoint
       (token_state_of
          (_get_access_token Request.short_token_endpoint new_token_state 0%nat
             Sample.ticking 0%nat))
       (posts_of
          (_get_access_token Request.short_token_endpoint new_token_state 0%nat
             Sample.ticking 0%nat))
       Sample.ticking
       (readings_of
          (_get_access_token Request.short_token_endpoint new_token_state 0%nat
             Sample.ticking 0%nat)))
  = 2%nat.
Proof.
  apply (short_lived_token_is_asked_again Request.short_token_endpoint 0%nat
           Sample.ticking 0%nat Request.short_token 240).
  - reflexivity.
  - reflexivity.
  - lia.
  - vm_compute. discriminate.
Defined.
